(** * Meeting statistics (src/modules/meetingStats.js)

    A shallow embedding of the meeting-statistics module: the two pure
    helpers [formatDuration] and [calculatePercentageChange], the Mongoose
    collections behind [MeetingStats] and [MeetingRecord], the aggregator
    functions that read and write them, the recent-meetings route and the two
    Socket.IO handlers.

    Numbers.  A JavaScript Number is an IEEE 754 binary64 value, which is what
    Rocq's primitive [float] is, so the arithmetic of
    [calculatePercentageChange] (a division, a product, [Math.round]) is run
    on [float] itself.  The counters, the durations and the millisecond
    timestamps that are stored are integers; they are kept in [Z], and the two
    places that divide them ([Math.floor (minutes / 60)] and
    [Math.round (ms / 60000)]) are written with the integer quotient they
    compute.  That reading is exact for integers below 2^53 in magnitude: the
    quotient by 60 (resp. 60000) of such an integer is further from the next
    integer (resp. half-integer) than half a unit in the last place. The
    examples in [JSFloatChecks] run the float computation next to the integer
    one.

    Effects.  An async function is a function of [M]: it runs in a world (the
    store, what was emitted so far) under an environment it does not control
    (the clock, store failures, the other operations in flight), and returns
    or throws; a thrown error leaves the writes already made in place, as no
    transaction wraps them. *)

From Stdlib Require Import ZArith Lia Ascii String Floats DecimalString.
From stdpp Require Import base list sorting strings.

Local Open Scope Z_scope.

(** ** JavaScript numbers *)

Module JS.

Definition Number := float.

(** The Number holding an integer (exact below 2^53 in magnitude). *)
Definition Z2Number (z : Z) : Number :=
  let a := PrimFloat.of_uint63 (Uint63.of_Z (Z.abs z)) in
  if z <? 0 then (- a)%float else a.

(** The integer a finite, integer-valued Number holds. *)
Definition Number2Z (x : Number) : option Z :=
  match Prim2SF x with
  | S754_zero _ => Some 0
  | S754_finite s m e =>
      let v := if s then Z.neg m else Z.pos m in
      if 0 <=? e then Some (v * 2 ^ e)
      else if Z.land v (Z.ones (- e)) =? 0 then Some (Z.shiftr v (- e))
      else None
  | _ => None
  end.

(** [Math.floor]: the greatest integer not above [x]; NaN, the infinities
    and the zeros are returned as they are. *)
Definition Math_floor (x : Number) : Number :=
  match Prim2SF x with
  | S754_finite s m e =>
      if 0 <=? e then x
      else Z2Number (Z.shiftr (if s then Z.neg m else Z.pos m) (- e))
  | _ => x
  end.

(** [Math.round]: the integer nearest to [x], a tie going up (towards
    +infinity), that is floor (x + 1/2) computed without rounding; the
    result is -0 when [x] is negative and rounds to zero. *)
Definition Math_round (x : Number) : Number :=
  match Prim2SF x with
  | S754_finite s m e =>
      if 0 <=? e then x
      else
        let v := if s then Z.neg m else Z.pos m in
        let n := Z.shiftr (2 * v + 2 ^ (- e)) (1 - e) in
        if n =? 0 then (if s then (- 0)%float else 0%float) else Z2Number n
  | _ => x
  end.

(** [Math.floor (a / b)] and [a % b] on integers, [b] positive. *)
Definition Math_floor_div (a b : Z) : Z := a / b.
Definition remainder (a b : Z) : Z := Z.rem a b.

(** [Math.round (a / b)] on integers, [b] positive: floor (a/b + 1/2). *)
Definition Math_round_div (a b : Z) : Z := (2 * a + b) / (2 * b).

(** Number to String, on an integer: decimal digits, a leading "-" when
    negative (a template literal applies it to each [${...}]). *)
Definition ToString (n : Z) : string :=
  NilZero.string_of_int (Z.to_int n).

End JS.

Import JS.

(** ** The two helpers *)

(** [formatDuration] (meetingStats.js, lines 51-55). *)
Definition formatDuration (minutes : Z) : string :=
  let hours := Math_floor_div minutes 60 in
  let mins := remainder minutes 60 in
  ToString hours +:+ "h " +:+ ToString mins +:+ "m".

(** [calculatePercentageChange] (lines 58-61). [previous === 0] is the IEEE
    equality (it holds of -0, not of NaN). *)
Definition calculatePercentageChange (current previous : Number) : Number :=
  if (previous =? 0)%float then (if (0 <? current)%float then 100 else 0)%float
  else Math_round (((current - previous) / previous) * 100)%float.


(** ** Documents (the two Mongoose schemas, lines 4-45) *)

Definition ObjectId := nat.
Definition Date := Z. (* milliseconds since the epoch *)

Module LastMonthStats.
Record t := mk {
  totalCalls : Z;
  totalDuration : Z;
  totalParticipants : Z;
  meetingsScheduled : Z }.

#[global] Instance eq_dec : EqDecision t.
Proof. solve_decision. Defined.
End LastMonthStats.

(** What [save()] writes on one path of a document that was read: Mongoose
    sends [$set] of the paths whose value is no longer the one that was read
    ([modified] against [original]); every other path keeps what the store
    holds ([stored]). *)
Definition set_if_modified {A} `{EqDecision A} (original modified stored : A) : A :=
  if decide (modified = original) then stored else modified.

Module MeetingStats.
Record t := mk {
  userId : ObjectId;
  totalCalls : Z;
  totalDuration : Z;
  totalParticipants : Z;
  meetingsScheduled : Z;
  lastMonthStats : LastMonthStats.t;
  lastUpdated : Date;
  createdAt : Date }.

Definition set_totalCalls (v : Z) (d : t) : t :=
  mk (userId d) v (totalDuration d) (totalParticipants d)
     (meetingsScheduled d) (lastMonthStats d) (lastUpdated d) (createdAt d).
Definition set_totalDuration (v : Z) (d : t) : t :=
  mk (userId d) (totalCalls d) v (totalParticipants d)
     (meetingsScheduled d) (lastMonthStats d) (lastUpdated d) (createdAt d).
Definition set_totalParticipants (v : Z) (d : t) : t :=
  mk (userId d) (totalCalls d) (totalDuration d) v
     (meetingsScheduled d) (lastMonthStats d) (lastUpdated d) (createdAt d).
Definition set_meetingsScheduled (v : Z) (d : t) : t :=
  mk (userId d) (totalCalls d) (totalDuration d) (totalParticipants d)
     v (lastMonthStats d) (lastUpdated d) (createdAt d).
Definition set_lastMonthStats (v : LastMonthStats.t) (d : t) : t :=
  mk (userId d) (totalCalls d) (totalDuration d) (totalParticipants d)
     (meetingsScheduled d) v (lastUpdated d) (createdAt d).
Definition set_lastUpdated (v : Date) (d : t) : t :=
  mk (userId d) (totalCalls d) (totalDuration d) (totalParticipants d)
     (meetingsScheduled d) (lastMonthStats d) v (createdAt d).

(** The stored document after the [$set] of a [save()]; the object assigned
    to [lastMonthStats] is one path. *)
Definition saved (original modified stored : t) : t :=
  mk (set_if_modified (userId original) (userId modified) (userId stored))
     (set_if_modified (totalCalls original) (totalCalls modified) (totalCalls stored))
     (set_if_modified (totalDuration original) (totalDuration modified)
        (totalDuration stored))
     (set_if_modified (totalParticipants original) (totalParticipants modified)
        (totalParticipants stored))
     (set_if_modified (meetingsScheduled original) (meetingsScheduled modified)
        (meetingsScheduled stored))
     (set_if_modified (lastMonthStats original) (lastMonthStats modified)
        (lastMonthStats stored))
     (set_if_modified (lastUpdated original) (lastUpdated modified)
        (lastUpdated stored))
     (set_if_modified (createdAt original) (createdAt modified) (createdAt stored)).
End MeetingStats.

Inductive Status := active | completed | cancelled.

#[global] Instance Status_eq_dec : EqDecision Status.
Proof. solve_decision. Defined.

Module MeetingRecord.
Record t := mk {
  userId : ObjectId;
  meetingId : string;
  meetingTitle : string;
  startTime : Date;
  endTime : option Date;
  duration : Z;
  participantCount : Z;
  isScheduled : bool;
  status : Status;
  createdAt : Date }.

(** The four assignments of [recordMeetingEnd] (lines 127-130). *)
Definition ended (endTime' : Date) (duration' participantCount' : Z) (d : t) : t :=
  mk (userId d) (meetingId d) (meetingTitle d) (startTime d)
     (Some endTime') duration' participantCount' (isScheduled d)
     completed (createdAt d).

(** The stored record after the [$set] of a [save()]. *)
Definition saved (original modified stored : t) : t :=
  mk (set_if_modified (userId original) (userId modified) (userId stored))
     (set_if_modified (meetingId original) (meetingId modified) (meetingId stored))
     (set_if_modified (meetingTitle original) (meetingTitle modified)
        (meetingTitle stored))
     (set_if_modified (startTime original) (startTime modified) (startTime stored))
     (set_if_modified (endTime original) (endTime modified) (endTime stored))
     (set_if_modified (duration original) (duration modified) (duration stored))
     (set_if_modified (participantCount original) (participantCount modified)
        (participantCount stored))
     (set_if_modified (isScheduled original) (isScheduled modified)
        (isScheduled stored))
     (set_if_modified (status original) (status modified) (status stored))
     (set_if_modified (createdAt original) (createdAt modified) (createdAt stored)).
End MeetingRecord.

(** ** The store, its environment and the monad of the async functions *)

(** A collection is the list of its documents in insertion order. Nothing in
    the module deletes a document, so the position of a document identifies
    it, as its [_id] does; a Mongoose document in hand is the pair of that
    position and its fields as they were read, and [save()] is given the
    fields as they have become since. *)
Record Store := mkStore {
  meetingstats : list MeetingStats.t;
  meetingrecords : list MeetingRecord.t }.

Definition Document (A : Type) : Type := nat * A.

Inductive Error :=
| StoreError        (* the store is unreachable, or a write failed *)
| DuplicateKey      (* E11000 on the unique index of MeetingStats.userId *)
| DocumentNotFound  (* save() of a document that is not in the collection *)
| TypeError         (* destructuring an undefined payload *)
| ValidationError.  (* a required path of a new document is empty *)

Inductive Result (A : Type) :=
| Return (a : A)
| Throw (e : Error).
Arguments Return {A} a.
Arguments Throw {A} e.

(** What an operation does not control: the readings of the clock (one per
    [new Date()] or [Date.now()]), whether a round trip to the store fails,
    what the other operations in flight have done to the store by the time a
    round trip is served (each [await] lets them run), and the locale's
    rendering of a date. *)
Record Env := mkEnv {
  clock : nat -> Date;
  outage : nat -> bool;
  interference : nat -> Store -> Store;
  toLocaleString : Date -> string }.

(** The formatted view [getFormattedStats] returns. *)
Inductive ChangeType := positive | negative | neutral.

Record Stat := mkStat {
  value : Z;
  change : Number;
  changeType : ChangeType }.

Record DurationStat := mkDurationStat {
  duration_value : string;
  rawValue : Z;
  duration_change : Number;
  duration_changeType : ChangeType }.

Record FormattedStats := mkFormattedStats {
  fs_totalCalls : Stat;
  fs_totalDuration : DurationStat;
  fs_totalParticipants : Stat;
  fs_meetingsScheduled : Stat;
  fs_lastUpdated : Date }.

(** Messages sent on the socket of a connection. *)
Inductive Payload :=
| stats_payload (stats : FormattedStats)
| user_stats_payload (userId : ObjectId) (stats : FormattedStats)
| error_payload (error : string).

Inductive Emission :=
| to_socket (event : string) (p : Payload)      (* socket.emit *)
| to_others (event : string) (p : Payload).     (* socket.broadcast.emit *)

Record World := mkWorld {
  db : Store;
  dates : nat;               (* clock readings taken so far *)
  trips : nat;               (* round trips to the store so far *)
  outbox : list Emission }.  (* what was emitted, oldest first *)

Definition M (A : Type) : Type := Env -> World -> Result A * World.

#[global] Instance M_ret : MRet M := fun A a _ w => (Return a, w).
#[global] Instance M_bind : MBind M := fun A B k m env w =>
  match m env w with
  | (Return a, w') => k a env w'
  | (Throw e, w') => (Throw e, w')
  end.

Definition throw {A} (e : Error) : M A := fun _ w => (Throw e, w).

(** [try { body } catch (error) { handler }]: what [body] did to the world
    before it threw stays done. *)
Definition try_catch {A} (body : M A) (handler : Error -> M A) : M A :=
  fun env w =>
    match body env w with
    | (Return a, w') => (Return a, w')
    | (Throw e, w') => handler e env w'
    end.

(** [for (const x of l) { body }]. *)
Fixpoint for_of {A} (l : list A) (body : A -> M unit) : M unit :=
  match l with
  | [] => mret tt
  | x :: l' => body x ;; for_of l' body
  end.

Definition new_Date : M Date := fun env w =>
  (Return (clock env (dates w)),
   mkWorld (db w) (S (dates w)) (trips w) (outbox w)).

(** One awaited round trip: the store as the other operations left it is
    read or written by [q], unless the trip fails. *)
Definition round_trip {A} (q : Store -> Result A * Store) : M A := fun env w =>
  let n := trips w in
  let s := interference env n (db w) in
  if outage env n then
    (Throw StoreError, mkWorld s (dates w) (S n) (outbox w))
  else
    let '(r, s') := q s in (r, mkWorld s' (dates w) (S n) (outbox w)).

(** [Date.prototype.toLocaleString], as the host renders it. *)
Definition Date_toLocaleString : M (Date -> string) := fun env w =>
  (Return (toLocaleString env), w).

Definition emit (e : Emission) : M unit := fun _ w =>
  (Return tt, mkWorld (db w) (dates w) (trips w) (outbox w ++ [e])).

(** ** Mongoose queries *)

(** [{ startTime: -1 }]: [x] may stand before [y]. *)
Definition newest_first (x y : Document MeetingRecord.t) : Prop :=
  MeetingRecord.startTime (snd y) <= MeetingRecord.startTime (snd x).

#[global] Instance newest_first_dec x y : Decision (newest_first x y).
Proof. unfold newest_first. apply Z_le_dec. Defined.

(** [cursor.limit(n)] of MongoDB: 0 is no limit, a negative limit is the
    limit of its absolute value. *)
Definition cursor_limit {A} (n : Z) (l : list A) : list A :=
  if n =? 0 then l else take (Z.abs_nat n) l.

Module Mongoose.

(** [MeetingStats.findOne({ userId })]. *)
Definition MeetingStats_findOne (userId : ObjectId)
  : M (option (Document MeetingStats.t)) :=
  round_trip (fun s =>
    (Return (list_find (fun d => MeetingStats.userId d = userId) (meetingstats s)), s)).

(** [MeetingStats.find({})]. *)
Definition MeetingStats_find_all : M (list (Document MeetingStats.t)) :=
  round_trip (fun s => (Return (imap pair (meetingstats s)), s)).

(** [save()] of a new MeetingStats: an insert, refused by the unique index
    on [userId] when the collection holds a document of that user. *)
Definition MeetingStats_insert (d : MeetingStats.t)
  : M (Document MeetingStats.t) :=
  round_trip (fun s =>
    match list_find (fun d' => MeetingStats.userId d' = MeetingStats.userId d)
                    (meetingstats s) with
    | Some _ => (Throw DuplicateKey, s)
    | None =>
        (Return (length (meetingstats s), d),
         mkStore (meetingstats s ++ [d]) (meetingrecords s))
    end).

(** [save()] of a MeetingStats that was read from (or inserted in) the
    collection, [doc], and has since become [modified]: one round trip, which
    writes the modified paths on the document at its position. *)
Definition MeetingStats_save (doc : Document MeetingStats.t)
    (modified : MeetingStats.t) : M unit :=
  round_trip (fun s =>
    match meetingstats s !! fst doc with
    | Some stored =>
        (Return tt,
         mkStore (<[fst doc := MeetingStats.saved (snd doc) modified stored]>
                    (meetingstats s))
           (meetingrecords s))
    | None => (Throw DocumentNotFound, s)
    end).

(** [MeetingRecord.findOne({ userId, meetingId, status })]. *)
Definition MeetingRecord_findOne (userId : ObjectId) (meetingId : string)
    (status : Status) : M (option (Document MeetingRecord.t)) :=
  round_trip (fun s =>
    (Return (list_find (fun r => MeetingRecord.userId r = userId
                                /\ MeetingRecord.meetingId r = meetingId
                                /\ MeetingRecord.status r = status)
                       (meetingrecords s)), s)).

(** [save()] of a new MeetingRecord: the document is validated first, and
    the required [meetingId] (line 32) must not be the empty string, or
    [ValidationError] is thrown and nothing is sent to the store; then an
    insert. ([userId] and [startTime], also required, are always there.) *)
Definition MeetingRecord_insert (r : MeetingRecord.t)
  : M (Document MeetingRecord.t) :=
  if decide (MeetingRecord.meetingId r = ""%string) then throw ValidationError
  else
    round_trip (fun s =>
      (Return (length (meetingrecords s), r),
       mkStore (meetingstats s) (meetingrecords s ++ [r]))).

(** [save()] of a MeetingRecord that was read from the collection, [doc],
    and has since become [modified]. *)
Definition MeetingRecord_save (doc : Document MeetingRecord.t)
    (modified : MeetingRecord.t) : M unit :=
  round_trip (fun s =>
    match meetingrecords s !! fst doc with
    | Some stored =>
        (Return tt,
         mkStore (meetingstats s)
           (<[fst doc := MeetingRecord.saved (snd doc) modified stored]>
              (meetingrecords s)))
    | None => (Throw DocumentNotFound, s)
    end).

(** [MeetingRecord.find({ userId }).sort({ startTime: -1 }).limit(limit).lean()]. *)
Definition MeetingRecord_find_sort_limit (userId : ObjectId) (limit : Z)
  : M (list (Document MeetingRecord.t)) :=
  round_trip (fun s =>
    (Return (cursor_limit limit
               (merge_sort newest_first
                  (filter (fun x => MeetingRecord.userId (snd x) = userId)
                          (imap pair (meetingrecords s))))), s)).

(** [new MeetingStats({ userId })]: the counters default to 0, the two
    dates to [Date.now]. *)
Definition new_MeetingStats (userId : ObjectId) : M MeetingStats.t :=
  lastUpdated ← new_Date;
  createdAt ← new_Date;
  mret (MeetingStats.mk userId 0 0 0 0 (LastMonthStats.mk 0 0 0 0)
          lastUpdated createdAt).

(** [new MeetingRecord({ userId, meetingId, meetingTitle, startTime,
    isScheduled, status })]: [duration] defaults to 0, [participantCount]
    to 1, [createdAt] to [Date.now]; there is no [endTime]. *)
Definition new_MeetingRecord (userId : ObjectId) (meetingId meetingTitle : string)
    (startTime : Date) (isScheduled : bool) (status : Status)
  : M MeetingRecord.t :=
  createdAt ← new_Date;
  mret (MeetingRecord.mk userId meetingId meetingTitle startTime None 0 1
          isScheduled status createdAt).

End Mongoose.

Import Mongoose.

(** ** The aggregator (lines 63-227) *)

(** A parameter with a default value: [undefined] takes the default. *)
Definition or_default {A} (dflt : A) (arg : option A) : A :=
  match arg with Some a => a | None => dflt end.

(** [getUserStats] (lines 64-78). *)
Definition getUserStats (userId : ObjectId) : M (Document MeetingStats.t) :=
  try_catch
    (stats ← MeetingStats_findOne userId;
     match stats with
     | Some stats => mret stats
     | None =>
         stats ← new_MeetingStats userId;
         MeetingStats_insert stats
     end)
    (fun error => throw error).

(** [recordMeetingStart] (lines 81-108). *)
Definition recordMeetingStart (userId : ObjectId) (meetingId : string)
    (meetingTitle : option string) (isScheduled : option bool)
  : M (Document MeetingRecord.t) :=
  let meetingTitle := or_default "Video Call"%string meetingTitle in
  let isScheduled := or_default false isScheduled in
  try_catch
    (startTime ← new_Date;
     meetingRecord ← new_MeetingRecord userId meetingId meetingTitle startTime
                       isScheduled active;
     meetingRecord ← MeetingRecord_insert meetingRecord;
     fetched ← getUserStats userId;
     let stats := snd fetched in
     let stats := MeetingStats.set_totalCalls (MeetingStats.totalCalls stats + 1) stats in
     let stats :=
       if isScheduled
       then MeetingStats.set_meetingsScheduled (MeetingStats.meetingsScheduled stats + 1) stats
       else stats in
     lastUpdated ← new_Date;
     let stats := MeetingStats.set_lastUpdated lastUpdated stats in
     MeetingStats_save fetched stats;;
     mret meetingRecord)
    (fun error => throw error).

(** [recordMeetingEnd] (lines 111-145); [None] is the [null] it returns. *)
Definition recordMeetingEnd (userId : ObjectId) (meetingId : string)
    (participantCount : option Z) : M (option (Document MeetingRecord.t)) :=
  let participantCount := or_default 1 participantCount in
  try_catch
    (meetingRecord ← MeetingRecord_findOne userId meetingId active;
     match meetingRecord with
     | None => mret None
     | Some found =>
         let meetingRecord := snd found in
         endTime ← new_Date;
         let duration :=
           Math_round_div (endTime - MeetingRecord.startTime meetingRecord) (1000 * 60) in
         let meetingRecord :=
           MeetingRecord.ended endTime duration participantCount meetingRecord in
         MeetingRecord_save found meetingRecord;;
         fetched ← getUserStats userId;
         let stats := snd fetched in
         let stats := MeetingStats.set_totalDuration (MeetingStats.totalDuration stats + duration) stats in
         let stats := MeetingStats.set_totalParticipants (MeetingStats.totalParticipants stats + participantCount) stats in
         lastUpdated ← new_Date;
         let stats := MeetingStats.set_lastUpdated lastUpdated stats in
         MeetingStats_save fetched stats;;
         mret (Some (fst found, meetingRecord))
     end)
    (fun error => throw error).

(** [change > 0 ? 'positive' : change < 0 ? 'negative' : 'neutral']. *)
Definition classify_change (change : Number) : ChangeType :=
  if (0 <? change)%float then positive
  else if (change <? 0)%float then negative
  else neutral.

(** [getFormattedStats] (lines 148-186). *)
Definition getFormattedStats (userId : ObjectId) : M FormattedStats :=
  try_catch
    ('(_, stats) ← getUserStats userId;
     let last := MeetingStats.lastMonthStats stats in
     let callsChange :=
       calculatePercentageChange (Z2Number (MeetingStats.totalCalls stats))
         (Z2Number (LastMonthStats.totalCalls last)) in
     let durationChange :=
       calculatePercentageChange (Z2Number (MeetingStats.totalDuration stats))
         (Z2Number (LastMonthStats.totalDuration last)) in
     let participantsChange :=
       calculatePercentageChange (Z2Number (MeetingStats.totalParticipants stats))
         (Z2Number (LastMonthStats.totalParticipants last)) in
     let scheduledChange :=
       calculatePercentageChange (Z2Number (MeetingStats.meetingsScheduled stats))
         (Z2Number (LastMonthStats.meetingsScheduled last)) in
     mret (mkFormattedStats
             (mkStat (MeetingStats.totalCalls stats) callsChange
                (classify_change callsChange))
             (mkDurationStat (formatDuration (MeetingStats.totalDuration stats))
                (MeetingStats.totalDuration stats) durationChange
                (classify_change durationChange))
             (mkStat (MeetingStats.totalParticipants stats) participantsChange
                (classify_change participantsChange))
             (mkStat (MeetingStats.meetingsScheduled stats) scheduledChange
                (classify_change scheduledChange))
             (MeetingStats.lastUpdated stats)))
    (fun error => throw error).

(** The object assigned to [stats.lastMonthStats] (lines 194-199). *)
Definition live_counters (stats : MeetingStats.t) : LastMonthStats.t :=
  LastMonthStats.mk (MeetingStats.totalCalls stats)
    (MeetingStats.totalDuration stats) (MeetingStats.totalParticipants stats)
    (MeetingStats.meetingsScheduled stats).

(** [resetMonthlyStats] (lines 189-208). *)
Definition resetMonthlyStats : M unit :=
  try_catch
    (allStats ← MeetingStats_find_all;
     for_of allStats (fun fetched =>
       let stats := snd fetched in
       let stats := MeetingStats.set_lastMonthStats (live_counters stats) stats in
       MeetingStats_save fetched stats))
    (fun error => throw error).

(** An element of the array [getRecentMeetings] returns: the fields of the
    lean document and the two formatted ones. *)
Record RecentMeeting := mkRecentMeeting {
  _id : nat;
  meeting : MeetingRecord.t;
  formattedDuration : string;
  formattedStartTime : string }.

(** [getRecentMeetings] (lines 211-227). *)
Definition getRecentMeetings (userId : ObjectId) (limit : option Z)
  : M (list RecentMeeting) :=
  let limit := or_default 10 limit in
  try_catch
    (meetings ← MeetingRecord_find_sort_limit userId limit;
     toLocaleString ← Date_toLocaleString;
     mret (map (fun '(id, meeting) =>
                  mkRecentMeeting id meeting
                    (formatDuration (MeetingRecord.duration meeting))
                    (toLocaleString (MeetingRecord.startTime meeting)))
               meetings))
    (fun error => throw error).

(** ** The recent-meetings route (lines 249-264) *)

Record Request := mkRequest {
  session_userId : option ObjectId;   (* req.session.userId *)
  user__id : option ObjectId;         (* req.user?._id *)
  query_limit : option Z }.           (* parseInt(req.query.limit); None is NaN *)

Inductive Body :=
| meetings_body (success : bool) (meetings : list RecentMeeting)
| error_body (error : string).

Record Response := mkResponse {
  status_code : nat;
  body : Body }.

(** [a || b] on a value that is absent or an object. *)
Definition or_else {A} (a b : option A) : option A :=
  match a with Some _ => a | None => b end.

(** [parseInt(req.query.limit) || 10]: NaN and 0 are falsy. *)
Definition limit_or_10 (parsed : option Z) : Z :=
  match parsed with
  | Some n => if n =? 0 then 10 else n
  | None => 10
  end.

Definition get_recent_meetings (req : Request) : M Response :=
  try_catch
    (match or_else (session_userId req) (user__id req) with
     | None => mret (mkResponse 401 (error_body "Not authenticated"))
     | Some userId =>
         let limit := limit_or_10 (query_limit req) in
         meetings ← getRecentMeetings userId (Some limit);
         mret (mkResponse 200 (meetings_body true meetings))
     end)
    (fun error => mret (mkResponse 500 (error_body "Failed to fetch recent meetings"))).

(** ** The Socket.IO handlers (lines 296-331) *)

Record MeetingStarted := mkMeetingStarted {
  started_userId : ObjectId;
  started_meetingId : string;
  started_meetingTitle : option string;
  started_isScheduled : option bool }.

Record MeetingEnded := mkMeetingEnded {
  ended_userId : ObjectId;
  ended_meetingId : string;
  ended_participantCount : option Z }.

Definition stats_error : Emission :=
  to_socket "stats-error" (error_payload "Failed to update meeting statistics").

(** [handleMeetingStart] (lines 297-313); [data] is [None] when the client
    sent no payload, and destructuring it throws. *)
Definition handleMeetingStart (data : option MeetingStarted) : M unit :=
  try_catch
    (match data with
     | None => throw TypeError
     | Some data =>
         let userId := started_userId data in
         recordMeetingStart userId (started_meetingId data)
           (started_meetingTitle data) (started_isScheduled data);;
         stats ← getFormattedStats userId;
         emit (to_socket "stats-updated" (stats_payload stats));;
         emit (to_others "stats-updated" (user_stats_payload userId stats))
     end)
    (fun error => emit stats_error).

(** [handleMeetingEnd] (lines 315-331). *)
Definition handleMeetingEnd (data : option MeetingEnded) : M unit :=
  try_catch
    (match data with
     | None => throw TypeError
     | Some data =>
         let userId := ended_userId data in
         recordMeetingEnd userId (ended_meetingId data)
           (ended_participantCount data);;
         stats ← getFormattedStats userId;
         emit (to_socket "stats-updated" (stats_payload stats));;
         emit (to_others "stats-updated" (user_stats_payload userId stats))
     end)
    (fun error => emit stats_error).

(** ** The statistics routes (lines 232-246 and 267-292) *)

Inductive ApiBody :=
| stats_body (success : bool) (stats : FormattedStats)
| update_body (success : bool) (result : option (Document MeetingRecord.t))
    (stats : FormattedStats)
| api_error_body (error : string).

Record ApiResponse := mkApiResponse {
  api_status : nat;
  api_body : ApiBody }.

(** [GET /api/meeting-stats]. *)
Definition get_meeting_stats (req : Request) : M ApiResponse :=
  try_catch
    (match or_else (session_userId req) (user__id req) with
     | None => mret (mkApiResponse 401 (api_error_body "Not authenticated"))
     | Some userId =>
         stats ← getFormattedStats userId;
         mret (mkApiResponse 200 (stats_body true stats))
     end)
    (fun error =>
       mret (mkApiResponse 500 (api_error_body "Failed to fetch meeting statistics"))).

(** [req.body] of [POST /api/meeting-stats/update]; an absent field is
    [undefined]. An absent [meetingId] is read as the empty string: the
    validation of a new record refuses both, and no stored record has
    either. *)
Record UpdateRequest := mkUpdateRequest {
  action : option string;
  body_meetingId : string;
  body_meetingTitle : option string;
  body_participantCount : option Z;
  body_isScheduled : option bool }.

(** [action === name]. *)
Definition action_is (name : string) (action : option string) : bool :=
  match action with
  | Some a => String.eqb a name
  | None => false
  end.

(** [POST /api/meeting-stats/update]. The result of a start is the record,
    the result of an end is the record or null. *)
Definition post_meeting_stats_update (req : Request) (body : UpdateRequest)
  : M ApiResponse :=
  try_catch
    (match or_else (session_userId req) (user__id req) with
     | None => mret (mkApiResponse 401 (api_error_body "Not authenticated"))
     | Some userId =>
         let recording :=
           if action_is "start" (action body) then
             Some (record ← recordMeetingStart userId (body_meetingId body)
                             (body_meetingTitle body) (body_isScheduled body);
                   mret (Some record))
           else if action_is "end" (action body) then
             Some (recordMeetingEnd userId (body_meetingId body)
                     (body_participantCount body))
           else None in
         match recording with
         | None => mret (mkApiResponse 400 (api_error_body "Invalid action"))
         | Some recording =>
             result ← recording;
             stats ← getFormattedStats userId;
             mret (mkApiResponse 200 (update_body true result stats))
         end
     end)
    (fun error =>
       mret (mkApiResponse 500 (api_error_body "Failed to update meeting statistics"))).

(** ** The client's statistics cards (MeetingStatsManager) *)

(** The string a change type is on the wire. *)
Definition ChangeType_string (c : ChangeType) : string :=
  match c with
  | positive => "positive"
  | negative => "negative"
  | neutral => "neutral"
  end.

Section Client.

(** Number to String, as the template literal applies it to a Number. *)
Variable Number_toString : Number -> string.

(** [getChangeText]. *)
Definition getChangeText (change : Number) (changeType : string) : string :=
  if String.eqb changeType "neutral" || (change =? 0)%float then
    " Same as last month"
  else
    let sign := if (0 <? change)%float then "+" else "" in
    " " +:+ sign +:+ Number_toString change +:+ "% from last month".

(** [getChangeIcon]. *)
Definition getChangeIcon (changeType : string) : string :=
  if String.eqb changeType "positive" then "fas fa-arrow-up"
  else if String.eqb changeType "negative" then "fas fa-arrow-down"
  else "fas fa-minus".

End Client.

(** * The vocabulary of the properties *)

(** No round trip fails and no other operation touches the store. *)
Definition quiet (env : Env) : Prop :=
  forall n, outage env n = false /\ forall s, interference env n s = s.

(** The world after a round trip that left the store as [s]. *)
Definition served (s : Store) (w : World) : World :=
  mkWorld s (dates w) (S (trips w)) (outbox w).

(** The document of a user and one of its counters (0 when there is none). *)
Definition stats_of (s : Store) (userId : ObjectId)
  : option (Document MeetingStats.t) :=
  list_find (fun d => MeetingStats.userId d = userId) (meetingstats s).

Definition counter (f : MeetingStats.t -> Z) (s : Store) (userId : ObjectId) : Z :=
  match stats_of s userId with
  | Some (_, d) => f d
  | None => 0
  end.

(** The active records of a meeting of a user. *)
Definition active_records (s : Store) (userId : ObjectId) (meetingId : string)
  : list MeetingRecord.t :=
  filter (fun r => MeetingRecord.userId r = userId
                   /\ MeetingRecord.meetingId r = meetingId
                   /\ MeetingRecord.status r = active)
         (meetingrecords s).

(** What a handler does before it emits: the calls of its [try] block up to
    the first [socket.emit]. *)
Definition process_meeting_started (data : option MeetingStarted)
  : M (ObjectId * FormattedStats) :=
  match data with
  | None => throw TypeError
  | Some data =>
      recordMeetingStart (started_userId data) (started_meetingId data)
        (started_meetingTitle data) (started_isScheduled data);;
      stats ← getFormattedStats (started_userId data);
      mret (started_userId data, stats)
  end.

Definition process_meeting_ended (data : option MeetingEnded)
  : M (ObjectId * FormattedStats) :=
  match data with
  | None => throw TypeError
  | Some data =>
      recordMeetingEnd (ended_userId data) (ended_meetingId data)
        (ended_participantCount data);;
      stats ← getFormattedStats (ended_userId data);
      mret (ended_userId data, stats)
  end.

(** The emissions a handler owes to the outcome of its processing. *)
Definition relayed (outcome : Result (ObjectId * FormattedStats)) : list Emission :=
  match outcome with
  | Return (userId, stats) =>
      [to_socket "stats-updated" (stats_payload stats);
       to_others "stats-updated" (user_stats_payload userId stats)]
  | Throw _ => [stats_error]
  end.

Definition is_broadcast (e : Emission) : Prop :=
  match e with to_others _ _ => True | to_socket _ _ => False end.

(** An operation that emits nothing. *)
Definition silent {A} (m : M A) : Prop :=
  forall env w, outbox (snd (m env w)) = outbox w.

(** A handler relays the outcome of its processing: it returns, leaves the
    store as the processing left it, and adds the emissions owed to the
    outcome, which are the single stats-error when the processing threw, and
    which hold a broadcast only when it returned. *)
Definition relays {D} (handler : option D -> M unit)
    (process : option D -> M (ObjectId * FormattedStats))
    (data : option D) (env : Env) (w : World) : Prop :=
  let outcome := fst (process data env w) in
  exists w',
    handler data env w = (Return tt, w')
    /\ db w' = db (snd (process data env w))
    /\ outbox w' = outbox w ++ relayed outcome
    /\ (forall e, outcome = Throw e ->
          outbox w' = outbox w ++ [stats_error]
          /\ Forall (fun m => ~ is_broadcast m) (relayed outcome))
    /\ (Exists is_broadcast (relayed outcome) ->
          exists userId stats,
            outcome = Return (userId, stats)
            /\ relayed outcome
               = [to_socket "stats-updated" (stats_payload stats);
                  to_others "stats-updated" (user_stats_payload userId stats)]).

(** At most one statistics document per user. *)
Definition unique_users (s : Store) : Prop :=
  NoDup (MeetingStats.userId <$> meetingstats s).

(** The statistics documents of a user. *)
Definition stats_documents (s : Store) (userId : ObjectId) : list MeetingStats.t :=
  filter (fun d => MeetingStats.userId d = userId) (meetingstats s).

(** The update of the statistics at a start (lines 96-99) and at an end
    (lines 135-136). *)
Definition started_stats (isScheduled : bool) (stats : MeetingStats.t) : MeetingStats.t :=
  let stats := MeetingStats.set_totalCalls (MeetingStats.totalCalls stats + 1) stats in
  if isScheduled
  then MeetingStats.set_meetingsScheduled (MeetingStats.meetingsScheduled stats + 1) stats
  else stats.

Definition ended_stats (duration participantCount : Z) (stats : MeetingStats.t)
  : MeetingStats.t :=
  let stats := MeetingStats.set_totalDuration (MeetingStats.totalDuration stats + duration) stats in
  MeetingStats.set_totalParticipants (MeetingStats.totalParticipants stats + participantCount) stats.

(** The world after [getUserStats], an update of the document, the stamp of
    [lastUpdated] and [save()], run alone against a reachable store. *)
Definition upserted (env : Env) (userId : ObjectId)
    (update : MeetingStats.t -> MeetingStats.t) (w : World) : World :=
  match stats_of (db w) userId with
  | Some (id, stats) =>
      mkWorld
        (mkStore
           (<[id := MeetingStats.set_lastUpdated (clock env (dates w)) (update stats)]>
              (meetingstats (db w)))
           (meetingrecords (db w)))
        (S (dates w)) (S (S (trips w))) (outbox w)
  | None =>
      let stats := MeetingStats.mk userId 0 0 0 0 (LastMonthStats.mk 0 0 0 0)
                     (clock env (dates w)) (clock env (S (dates w))) in
      mkWorld
        (mkStore
           (meetingstats (db w)
            ++ [MeetingStats.set_lastUpdated (clock env (S (S (dates w)))) (update stats)])
           (meetingrecords (db w)))
        (S (S (S (dates w)))) (S (S (S (trips w)))) (outbox w)
  end.

(** The record [recordMeetingStart] creates in a world. *)
Definition started_record (env : Env) (w : World) (userId : ObjectId)
    (meetingId : string) (meetingTitle : option string) (isScheduled : option bool)
  : MeetingRecord.t :=
  MeetingRecord.mk userId meetingId (or_default "Video Call"%string meetingTitle)
    (clock env (dates w)) None 0 1 (or_default false isScheduled) active
    (clock env (S (dates w))).

(** The record [recordMeetingEnd] makes of an active one in a world. *)
Definition ended_record (env : Env) (w : World) (participantCount : option Z)
    (r : MeetingRecord.t) : MeetingRecord.t :=
  MeetingRecord.ended (clock env (dates w))
    (Math_round_div (clock env (dates w) - MeetingRecord.startTime r) (1000 * 60))
    (or_default 1 participantCount) r.

(** The four change types of a view. *)
Definition change_types (stats : FormattedStats) : list ChangeType :=
  [changeType (fs_totalCalls stats); duration_changeType (fs_totalDuration stats);
   changeType (fs_totalParticipants stats); changeType (fs_meetingsScheduled stats)].

(** The four counters a view shows. *)
Definition shown_counters (stats : FormattedStats) : LastMonthStats.t :=
  LastMonthStats.mk (value (fs_totalCalls stats)) (rawValue (fs_totalDuration stats))
    (value (fs_totalParticipants stats)) (value (fs_meetingsScheduled stats)).

(** The four counters of a user in the store (0 without a document). *)
Definition stored_counters (s : Store) (userId : ObjectId) : LastMonthStats.t :=
  LastMonthStats.mk (counter MeetingStats.totalCalls s userId)
    (counter MeetingStats.totalDuration s userId)
    (counter MeetingStats.totalParticipants s userId)
    (counter MeetingStats.meetingsScheduled s userId).

(** The view [getFormattedStats] builds from a document (lines 152-181). *)
Definition formatted_view (stats : MeetingStats.t) : FormattedStats :=
  let last := MeetingStats.lastMonthStats stats in
  let callsChange :=
    calculatePercentageChange (Z2Number (MeetingStats.totalCalls stats))
      (Z2Number (LastMonthStats.totalCalls last)) in
  let durationChange :=
    calculatePercentageChange (Z2Number (MeetingStats.totalDuration stats))
      (Z2Number (LastMonthStats.totalDuration last)) in
  let participantsChange :=
    calculatePercentageChange (Z2Number (MeetingStats.totalParticipants stats))
      (Z2Number (LastMonthStats.totalParticipants last)) in
  let scheduledChange :=
    calculatePercentageChange (Z2Number (MeetingStats.meetingsScheduled stats))
      (Z2Number (LastMonthStats.meetingsScheduled last)) in
  mkFormattedStats
    (mkStat (MeetingStats.totalCalls stats) callsChange (classify_change callsChange))
    (mkDurationStat (formatDuration (MeetingStats.totalDuration stats))
       (MeetingStats.totalDuration stats) durationChange
       (classify_change durationChange))
    (mkStat (MeetingStats.totalParticipants stats) participantsChange
       (classify_change participantsChange))
    (mkStat (MeetingStats.meetingsScheduled stats) scheduledChange
       (classify_change scheduledChange))
    (MeetingStats.lastUpdated stats).

(** The document [new MeetingStats({ userId })] builds in a world. *)
Definition created_stats (env : Env) (w : World) (userId : ObjectId) : MeetingStats.t :=
  MeetingStats.mk userId 0 0 0 0 (LastMonthStats.mk 0 0 0 0)
    (clock env (dates w)) (clock env (S (dates w))).

(** The world after [getUserStats], run alone against a reachable store. *)
Definition fetched (env : Env) (userId : ObjectId) (w : World) : World :=
  match stats_of (db w) userId with
  | Some _ => served (db w) w
  | None =>
      mkWorld
        (mkStore (meetingstats (db w) ++ [created_stats env w userId])
           (meetingrecords (db w)))
        (S (S (dates w))) (S (S (trips w))) (outbox w)
  end.

(** The document [getUserStats] returns in a world. *)
Definition fetched_stats (env : Env) (userId : ObjectId) (w : World) : MeetingStats.t :=
  match stats_of (db w) userId with
  | Some (_, stats) => stats
  | None => created_stats env w userId
  end.

(** The month roll-over of a document (lines 194-199). *)
Definition rolled_over (stats : MeetingStats.t) : MeetingStats.t :=
  MeetingStats.set_lastMonthStats (live_counters stats) stats.

(** The float computations the integer readings stand for, and the samples
    they are compared on. *)
Module JSFloatChecks.

Definition floor60 (m : Z) : option Z :=
  Number2Z (Math_floor (Z2Number m / 60)%float).
Definition round60000 (ms : Z) : option Z :=
  Number2Z (Math_round (Z2Number ms / (1000 * 60))%float).

Definition samples : list Z :=
  [0; 1; 59; 60; 61; 119; 125; 3599; 29999; 30000; 30001; 59999; 60000;
   89999; 90000; 90001; 3900000; 86400000; 1762041600000;
   9007199254740991; -1; -5; -59; -60; -61; -120; -29999; -30000; -30001;
   -90000; -90001; -3900000; -9007199254740991].

End JSFloatChecks.

(** Sample environments and worlds. *)
Module Sample.

(** A reachable store, no other operation in flight; the clock reads
    01:05:01.000 and advances one millisecond per reading. *)
Definition env : Env :=
  mkEnv (fun n => 3901000 + Z.of_nat n) (fun _ => false) (fun _ s => s) ToString.

Definition alice : ObjectId := 7%nat.

Definition alice_stats : MeetingStats.t :=
  MeetingStats.mk alice 4 30 9 2 (LastMonthStats.mk 2 60 9 0) 500 100.

Definition bob_stats : MeetingStats.t :=
  MeetingStats.mk 8%nat 1 0 0 0 (LastMonthStats.mk 0 0 0 0) 900 900.

(** A meeting of alice that started at 00:00:01.000 and is still active. *)
Definition standup : MeetingRecord.t :=
  MeetingRecord.mk alice "standup" "Video Call" 1000 None 0 1 false active 1001.

Definition standup_ended : MeetingRecord.t :=
  MeetingRecord.mk alice "standup" "Video Call" 1000 (Some 3901000) 65 3
    false completed 1001.

Definition empty : World := mkWorld (mkStore [] []) 0 0 [].

Definition in_meeting : World :=
  mkWorld (mkStore [bob_stats; alice_stats] [standup]) 0 0 [].

(** The same store, with a rival creation of alice's statistics served
    between the read and the insert of [getUserStats]. *)
Definition rival : MeetingStats.t :=
  MeetingStats.mk alice 0 0 0 0 (LastMonthStats.mk 0 0 0 0) 3900999 3900999.

Definition racing : Env :=
  mkEnv (clock env) (outage env)
    (fun n s =>
       match n with
       | 1%nat => mkStore (meetingstats s ++ [rival]) (meetingrecords s)
       | _ => s
       end)
    (toLocaleString env).

(** The store is down. *)
Definition down : Env :=
  mkEnv (clock env) (fun _ => true) (interference env) (toLocaleString env).

End Sample.

(** The integers a Number holds exactly ([Number.isSafeInteger]), and the
    sums of two of them that it computes exactly. *)
Definition safe_integer (z : Z) : Prop := - 2 ^ 53 < z < 2 ^ 53.

Definition safe_sum (a b : Z) : Prop :=
  safe_integer a /\ safe_integer b /\ safe_integer (a + b).

(** No other operation is in flight (round trips may still fail). *)
Definition undisturbed (env : Env) : Prop :=
  forall n s, interference env n s = s.

(** An operation that throws the store's error and leaves the store as it
    was. *)
Definition refused {A} (operation : M A) (env : Env) (w : World) : Prop :=
  fst (operation env w) = Throw StoreError
  /\ db (snd (operation env w)) = db w.

(** What a concurrent start of the same user does to the statistics between
    two round trips of an operation: one call more on the user's document. *)
Definition concurrent_start (userId : ObjectId) (s : Store) : Store :=
  match stats_of s userId with
  | Some (id, stats) =>
      mkStore
        (<[id := MeetingStats.set_totalCalls (MeetingStats.totalCalls stats + 1) stats]>
           (meetingstats s))
        (meetingrecords s)
  | None => s
  end.

(** Further sample environments and worlds. *)
Module Scenario.

(** The store fails the round trip [n] and no other. *)
Definition failing_at (n : nat) : Env :=
  mkEnv (clock Sample.env) (fun k => bool_decide (k = n)) (interference Sample.env)
    (toLocaleString Sample.env).

(** The stand-up was started twice, and a retro is running. *)
Definition standup_again : MeetingRecord.t :=
  MeetingRecord.mk Sample.alice "standup" "Video Call" 2000 None 0 1 false active 2001.

Definition retro : MeetingRecord.t :=
  MeetingRecord.mk Sample.alice "retro" "Retro" 1500 None 0 1 true active 1501.

Definition started_twice : World :=
  mkWorld
    (mkStore [Sample.bob_stats; Sample.alice_stats]
       [Sample.standup; retro; standup_again]) 0 0 [].

Definition carol : ObjectId := 9%nat.

(** The clock reads 01:04:31.000, 64 minutes and a half after the stand-up
    started. *)
Definition half_past : Env :=
  mkEnv (fun n => 3871000 + Z.of_nat n) (outage Sample.env)
    (interference Sample.env) (toLocaleString Sample.env).

(** Another operation adds 65 minutes to alice's total just before the
    round trip 2. *)
Definition ending_meanwhile : Env :=
  mkEnv (clock Sample.env) (outage Sample.env)
    (fun n s =>
       if bool_decide (n = 2%nat) then
         match stats_of s Sample.alice with
         | Some (id, stats) =>
             mkStore
               (<[id := MeetingStats.set_totalDuration
                          (MeetingStats.totalDuration stats + 65) stats]>
                  (meetingstats s))
               (meetingrecords s)
         | None => s
         end
       else s)
    (toLocaleString Sample.env).

(** A call of 64 minutes and a half: the clock reads 00:00:01.000 three
    times, then 01:04:31.000. *)
Definition long_call : Env :=
  mkEnv (fun n => if (n <? 3)%nat then 1000 else 3871000) (outage Sample.env)
    (interference Sample.env) (toLocaleString Sample.env).

Definition standup_at_half_past : MeetingRecord.t :=
  MeetingRecord.mk Sample.alice "standup" "Video Call" 1000 (Some 3871000) 65 3
    false completed 1001.

(** Another start of alice is served just before the round trip 2. *)
Definition overlapping : Env :=
  mkEnv (clock Sample.env) (outage Sample.env)
    (fun n s => if bool_decide (n = 2%nat) then concurrent_start Sample.alice s else s)
    (toLocaleString Sample.env).

Definition anonymous : Request := mkRequest None None None.
Definition as_alice : Request := mkRequest (Some Sample.alice) None None.

Definition start_weekly : UpdateRequest :=
  mkUpdateRequest (Some "start"%string) "weekly" None None (Some true).
Definition end_weekly : UpdateRequest :=
  mkUpdateRequest (Some "end"%string) "weekly" None (Some 4) None.
Definition pause_weekly : UpdateRequest :=
  mkUpdateRequest (Some "pause"%string) "weekly" None None None.

End Scenario.

(** * Properties *)

(** ** The integer readings against the float computations *)

Example floor_div_agrees :
  forallb (fun m => bool_decide (JSFloatChecks.floor60 m = Some (Math_floor_div m 60)))
    JSFloatChecks.samples = true.
Proof. vm_compute. reflexivity. Qed.

Example round_div_agrees :
  forallb (fun d => bool_decide (JSFloatChecks.round60000 d = Some (Math_round_div d 60000)))
    JSFloatChecks.samples = true.
Proof. vm_compute. reflexivity. Qed.

(** The product by 100 is a float product: 29/200 is not 0.145, and the
    result is 14 where the exact quotient 14.5 would round to 15. *)
Example percentage_is_float_arithmetic :
  calculatePercentageChange 229%float 200%float = 14%float.
Proof. vm_compute. reflexivity. Qed.


(** ** The helpers *)

Section Helpers.

Local Open Scope float_scope.

Lemma Prim2SF_zero : Prim2SF 0 = S754_zero false.
Proof. reflexivity. Qed.

(** A Number that is at most 0 is not above 0. *)
Lemma leb_zero_not_pos (x : Number) : (x <=? 0) = true -> (0 <? x) = false.
Proof.
  rewrite leb_spec, ltb_spec, Prim2SF_zero.
  unfold SFleb, SFltb.
  destruct (Prim2SF x) as [s|s| |s m e]; simpl; try reflexivity;
    destruct s; simpl; congruence.
Qed.

(** A negative integer is printed with a leading minus sign. *)
Lemma ToString_negative (n : Z) :
  (n < 0)%Z -> exists digits, ToString n = String "-"%char digits.
Proof.
  destruct n as [|p|p]; try lia. intros _.
  unfold ToString. simpl. eauto.
Qed.

(** [Math.round] on a finite Number that is not an integer: the result is
    the integer [n] with n - 1/2 <= x < n + 1/2, a zero keeping the sign of
    [x]. *)
Lemma Math_round_nearest (x : Number) (s : bool) (m : BinNums.positive) (e : Z) :
  Prim2SF x = S754_finite s m e -> (e < 0)%Z ->
  let v := if s then Z.neg m else Z.pos m in
  exists n : Z,
    ((2 * n - 1) * 2 ^ (- e) <= 2 * v < (2 * n + 1) * 2 ^ (- e))%Z
    /\ (n <> 0%Z -> Math_round x = Z2Number n)
    /\ (n = 0%Z -> Math_round x = if s then -0 else 0).
Proof.
  intros Hx He v.
  exists (Z.shiftr (2 * v + 2 ^ (- e)) (1 - e)).
  assert (Hp : (0 < 2 ^ (- e))%Z) by (apply Z.pow_pos_nonneg; lia).
  assert (Hn : Z.shiftr (2 * v + 2 ^ (- e)) (1 - e)
               = ((2 * v + 2 ^ (- e)) / (2 * 2 ^ (- e)))%Z).
  { rewrite Z.shiftr_div_pow2 by lia.
    replace (1 - e)%Z with (Z.succ (- e)) by lia.
    rewrite Z.pow_succ_r by lia. reflexivity. }
  split.
  { rewrite Hn.
    pose proof (Z.div_mod (2 * v + 2 ^ (- e)) (2 * 2 ^ (- e)) ltac:(lia)) as E.
    pose proof (Z.mod_pos_bound (2 * v + 2 ^ (- e)) (2 * 2 ^ (- e)) ltac:(lia)) as B.
    nia. }
  unfold Math_round. rewrite Hx.
  rewrite (proj2 (Z.leb_gt 0 e)) by exact He.
  fold v. cbv zeta.
  split.
  - intros Hnz. rewrite (proj2 (Z.eqb_neq _ 0)) by exact Hnz. reflexivity.
  - intros Hz. rewrite Hz. reflexivity.
Qed.

(** C1. Percentage change: with a baseline equal to 0 the result is 100
    when the current value is above 0 and 0 when it is at most 0; with any
    other baseline it is [Math.round] of (current - baseline) / baseline *
    100, computed as the code computes it, in binary64: when that Number
    [x] is finite and not an integer, the result is the integer [n] with
    n - 1/2 <= x < n + 1/2 (a half rounds up, and a result of zero keeps the
    sign of [x]); when [x] is an integer, a zero, an infinity or NaN, the
    result is [x].  In particular (0,0) gives 0, (x,0) gives 100 for every
    x > 0, (110,100) gives 10 and (90,100) gives -10; and, where the
    rounding shows, (229,200) gives 14, (1,3) gives -67, (2,3) gives -33,
    (9,8) gives 13, (7,8) gives -12, (201,200) gives 1, and (199,200) and
    (999,1000) give -0. *)
Theorem calculatePercentageChange_rule (current baseline : Number) :
  ((baseline =? 0) = true -> (0 <? current) = true ->
     calculatePercentageChange current baseline = 100)
  /\ ((baseline =? 0) = true -> (current <=? 0) = true ->
     calculatePercentageChange current baseline = 0)
  /\ ((baseline =? 0) = false ->
     calculatePercentageChange current baseline
     = Math_round ((current - baseline) / baseline * 100))
  /\ ((baseline =? 0) = false ->
     let x := (current - baseline) / baseline * 100 in
     let result := calculatePercentageChange current baseline in
     match Prim2SF x with
     | S754_finite s m e =>
         let v := if s then Z.neg m else Z.pos m in
         ((0 <= e)%Z -> result = x)
         /\ ((e < 0)%Z ->
             exists n : Z,
               ((2 * n - 1) * 2 ^ (- e) <= 2 * v < (2 * n + 1) * 2 ^ (- e))%Z
               /\ (n <> 0%Z -> result = Z2Number n)
               /\ (n = 0%Z -> result = if s then -0 else 0))
     | _ => result = x
     end)
  /\ calculatePercentageChange 0 0 = 0
  /\ ((0 <? current) = true -> calculatePercentageChange current 0 = 100)
  /\ calculatePercentageChange 110 100 = 10
  /\ calculatePercentageChange 90 100 = -10
  /\ calculatePercentageChange 229 200 = 14
  /\ calculatePercentageChange 1 3 = -67
  /\ calculatePercentageChange 2 3 = -33
  /\ calculatePercentageChange 9 8 = 13
  /\ calculatePercentageChange 7 8 = -12
  /\ calculatePercentageChange 201 200 = 1
  /\ calculatePercentageChange 199 200 = -0
  /\ calculatePercentageChange 999 1000 = -0.
Proof.
  split; [|split; [|split; [|split]]].
  - unfold calculatePercentageChange. intros -> ->. reflexivity.
  - unfold calculatePercentageChange.
    intros -> Hle. rewrite (leb_zero_not_pos _ Hle). reflexivity.
  - unfold calculatePercentageChange. intros ->. reflexivity.
  - intros Hb x result.
    assert (Hresult : result = Math_round x).
    { subst result x. unfold calculatePercentageChange. rewrite Hb. reflexivity. }
    rewrite Hresult. clear Hresult result.
    destruct (Prim2SF x) as [s'|s'| |s m e] eqn:Hx;
      try (unfold Math_round; rewrite Hx; reflexivity).
    cbv zeta. split.
    + intros He. unfold Math_round. rewrite Hx.
      rewrite (proj2 (Z.leb_le 0 e)) by exact He. reflexivity.
    + intros He. exact (Math_round_nearest x s m e Hx He).
  - unfold calculatePercentageChange. repeat split; try (vm_compute; reflexivity).
    change (0 =? 0) with true. cbv iota. intros ->. reflexivity.
Qed.

Lemma calculatePercentageChange_rule_witness :
  (200 =? 0) = false /\ calculatePercentageChange 229 200 = 14.
Proof.
  split; [reflexivity|].
  destruct (calculatePercentageChange_rule 229 200) as (_ & _ & _ & Hround & _).
  specialize (Hround eq_refl). cbv zeta in Hround.
  replace (Prim2SF ((229 - 200) / 200 * 100))
    with (S754_finite false 8162774324609023 (-49)) in Hround
    by (vm_compute; reflexivity).
  destruct Hround as [_ Hround].
  destruct (Hround ltac:(lia)) as (n & Hn & Hresult & _).
  assert (n = 14%Z) by lia. subst n.
  rewrite Hresult by discriminate. vm_compute. reflexivity.
Defined.

End Helpers.

(** C7. For every non-negative number of minutes, [formatDuration] returns
    the hours, floor (m / 60), then "h ", then the minutes, m mod 60, then
    "m"; 125 gives "2h 5m" and 0 gives "0h 0m". *)
Theorem formatDuration_nonneg (m : Z) :
  0 <= m ->
  formatDuration m = ToString (m / 60) +:+ "h " +:+ ToString (m mod 60) +:+ "m"
  /\ 0 <= m / 60 /\ 0 <= m mod 60 < 60
  /\ formatDuration 125 = "2h 5m"
  /\ formatDuration 0 = "0h 0m".
Proof.
  intros Hm. unfold formatDuration, Math_floor_div, remainder.
  rewrite Z.rem_mod_nonneg by lia.
  repeat split; try reflexivity.
  - apply Z.div_pos; lia.
  - apply Z.mod_pos_bound; lia.
  - apply Z.mod_pos_bound; lia.
Qed.

Lemma formatDuration_nonneg_witness :
  formatDuration 3599 = "59h 59m".
Proof.
  destruct (formatDuration_nonneg 3599 ltac:(lia)) as [-> _]. reflexivity.
Defined.

(** C10, as the code has it. For every negative number of minutes the hour
    part is floor (m / 60), which is negative, and the minutes part is the
    remainder m % 60 of JavaScript, which takes the sign of m: it is negative
    (and printed with its minus sign) unless m is a multiple of 60, where it
    is printed as 0.  -5 gives "-1h -5m". *)
Theorem formatDuration_negative (m : Z) :
  m < 0 ->
  formatDuration m
  = ToString (Math_floor_div m 60) +:+ "h " +:+ ToString (remainder m 60) +:+ "m"
  /\ Math_floor_div m 60 = - ((- m + 59) / 60)
  /\ Math_floor_div m 60 < 0
  /\ -60 < remainder m 60 <= 0
  /\ remainder m 60 = - ((- m) mod 60)
  /\ (remainder m 60 < 0 <-> ~ (60 | m))
  /\ (~ (60 | m) -> exists digits, ToString (remainder m 60) = String "-"%char digits)
  /\ ((60 | m) -> ToString (remainder m 60) = "0")
  /\ formatDuration (-5) = "-1h -5m".
Proof.
  intros Hm.
  assert (Hrem : remainder m 60 = - ((- m) mod 60)).
  { unfold remainder.
    rewrite <- (Z.opp_involutive m) at 1. rewrite Z.rem_opp_l by lia.
    rewrite Z.rem_mod_nonneg by lia. reflexivity. }
  assert (Hbound : 0 <= (- m) mod 60 < 60) by (apply Z.mod_pos_bound; lia).
  assert (Hdiv : (60 | m) <-> (- m) mod 60 = 0).
  { rewrite Z.mod_divide by lia. rewrite Z.divide_opp_r. reflexivity. }
  assert (Hfloor : Math_floor_div m 60 = - ((- m + 59) / 60)).
  { unfold Math_floor_div.
    pose proof (Z.div_mod m 60 ltac:(lia)) as E1.
    pose proof (Z.mod_pos_bound m 60 ltac:(lia)) as B1.
    pose proof (Z.div_mod (- m + 59) 60 ltac:(lia)) as E2.
    pose proof (Z.mod_pos_bound (- m + 59) 60 ltac:(lia)) as B2.
    lia. }
  split; [reflexivity|]. split; [exact Hfloor|].
  split.
  { unfold Math_floor_div. apply Z.div_lt_upper_bound; lia. }
  split; [lia|]. split; [exact Hrem|].
  split; [rewrite Hdiv; lia|].
  split.
  { intros Hnd. apply ToString_negative. rewrite Hdiv in Hnd. lia. }
  split.
  { intros Hd. rewrite Hdiv in Hd. rewrite Hrem, Hd. reflexivity. }
  reflexivity.
Qed.

Lemma formatDuration_negative_witness :
  formatDuration (-125) = "-3h -5m".
Proof.
  destruct (formatDuration_negative (-125) ltac:(lia)) as [-> _]. reflexivity.
Defined.

(** C10, as stated, fails at -60: the minutes part is not negative. *)
Lemma formatDuration_minus_sixty :
  -60 < 0 /\ formatDuration (-60) = "-1h 0m" /\ ~ (remainder (-60) 60 < 0).
Proof.
  split; [lia|]. split; [reflexivity|]. vm_compute. discriminate.
Qed.

(** ** Running the monad *)

Section Running.

Context {A B : Type}.
Implicit Types (m : M A) (k : A -> M B) (env : Env) (w : World).

Lemma bind_Return m k env w a w' :
  m env w = (Return a, w') -> (m ≫= k) env w = k a env w'.
Proof. unfold mbind, M_bind. intros ->. reflexivity. Qed.

Lemma bind_Throw m k env w e w' :
  m env w = (Throw e, w') -> (m ≫= k) env w = (Throw e, w').
Proof. unfold mbind, M_bind. intros ->. reflexivity. Qed.

Lemma try_rethrow m env w :
  try_catch m (fun error => throw error) env w = m env w.
Proof. unfold try_catch, throw. destruct (m env w) as [[a|e] w']; reflexivity. Qed.

Lemma round_trip_quiet (q : Store -> Result A * Store) env w :
  quiet env ->
  round_trip q env w = (fst (q (db w)), served (snd (q (db w))) w).
Proof.
  intros Hq. destruct (Hq (trips w)) as [Hout Hint].
  unfold round_trip. rewrite Hout, Hint.
  destruct (q (db w)) as [r s']. reflexivity.
Qed.

End Running.

Section Quiet.

Variable env : Env.
Hypothesis Hquiet : quiet env.

Lemma getUserStats_quiet (userId : ObjectId) (w : World) :
  getUserStats userId env w =
  match stats_of (db w) userId with
  | Some doc => (Return doc, served (db w) w)
  | None =>
      let d := MeetingStats.mk userId 0 0 0 0 (LastMonthStats.mk 0 0 0 0)
                 (clock env (dates w)) (clock env (S (dates w))) in
      (Return (length (meetingstats (db w)), d),
       mkWorld (mkStore (meetingstats (db w) ++ [d]) (meetingrecords (db w)))
         (S (S (dates w))) (S (S (trips w))) (outbox w))
  end.
Proof.
  unfold getUserStats. rewrite try_rethrow.
  unfold MeetingStats_findOne, MeetingStats_insert, new_MeetingStats,
    mbind, M_bind, mret, M_ret, new_Date.
  rewrite round_trip_quiet by assumption. simpl.
  unfold stats_of. destruct (list_find _ _) as [doc|] eqn:Hfind; [reflexivity|].
  rewrite round_trip_quiet by assumption. simpl. rewrite Hfind. reflexivity.
Qed.

Lemma set_if_modified_same {A} `{EqDecision A} (original modified : A) :
  set_if_modified original modified original = modified.
Proof.
  unfold set_if_modified. destruct (decide (modified = original)); congruence.
Qed.

(** A document that no other operation has written since it was read is
    stored as it has become. *)
Lemma MeetingStats_saved_same (original modified : MeetingStats.t) :
  MeetingStats.saved original modified original = modified.
Proof.
  unfold MeetingStats.saved. rewrite !set_if_modified_same.
  destruct modified. reflexivity.
Qed.

Lemma MeetingRecord_saved_same (original modified : MeetingRecord.t) :
  MeetingRecord.saved original modified original = modified.
Proof.
  unfold MeetingRecord.saved. rewrite !set_if_modified_same.
  destruct modified. reflexivity.
Qed.

Lemma MeetingStats_save_quiet (id : nat) (original modified : MeetingStats.t)
    (w : World) :
  meetingstats (db w) !! id = Some original ->
  MeetingStats_save (id, original) modified env w
  = (Return tt,
     served (mkStore (<[id := modified]> (meetingstats (db w)))
               (meetingrecords (db w))) w).
Proof.
  intros Hstored. unfold MeetingStats_save.
  rewrite round_trip_quiet by assumption. cbn [fst snd].
  rewrite Hstored, MeetingStats_saved_same. reflexivity.
Qed.

Lemma MeetingRecord_save_quiet (id : nat) (original modified : MeetingRecord.t)
    (w : World) :
  meetingrecords (db w) !! id = Some original ->
  MeetingRecord_save (id, original) modified env w
  = (Return tt,
     served (mkStore (meetingstats (db w))
               (<[id := modified]> (meetingrecords (db w)))) w).
Proof.
  intros Hstored. unfold MeetingRecord_save.
  rewrite round_trip_quiet by assumption. cbn [fst snd].
  rewrite Hstored, MeetingRecord_saved_same. reflexivity.
Qed.

Lemma MeetingRecord_insert_quiet (r : MeetingRecord.t) (w : World) :
  MeetingRecord.meetingId r <> ""%string ->
  MeetingRecord_insert r env w
  = (Return (length (meetingrecords (db w)), r),
     served (mkStore (meetingstats (db w)) (meetingrecords (db w) ++ [r])) w).
Proof.
  intros Hid. unfold MeetingRecord_insert.
  rewrite decide_False by assumption.
  rewrite round_trip_quiet by assumption. reflexivity.
Qed.

(** Validation comes before the store: an empty [meetingId] is refused in
    every environment, and the world stays as it was. *)
Lemma MeetingRecord_insert_invalid (r : MeetingRecord.t) (env' : Env) (w : World) :
  MeetingRecord.meetingId r = ""%string ->
  MeetingRecord_insert r env' w = (Throw ValidationError, w).
Proof.
  intros Hid. unfold MeetingRecord_insert.
  rewrite decide_True by assumption. reflexivity.
Qed.

End Quiet.

(** ** Lists of documents *)

Section Finding.

Context {A : Type} (P : A -> Prop) `{!forall x, Decision (P x)}.

Lemma list_find_filter_nil (l : list A) :
  filter P l = [] -> list_find P l = None.
Proof.
  intros Hnil. apply list_find_None, Forall_forall.
  intros x Hx HP. apply (filter_nil_not_elem_of P l x Hnil HP), Hx.
Qed.

(** The only document that satisfies [P] is the one [findOne] returns, and
    none is left once it is replaced by one that does not satisfy [P]. *)
Lemma list_find_filter_singleton (l : list A) (x : A) :
  filter P l = [x] ->
  exists i, list_find P l = Some (i, x)
            /\ forall y, ~ P y -> filter P (<[i := y]> l) = [].
Proof.
  induction l as [|a l IH]; [discriminate|].
  rewrite filter_cons. simpl. destruct (decide (P a)) as [Ha|Ha].
  - intros [= -> Hnil]. exists 0%nat. split; [reflexivity|].
    intros y Hy. simpl. rewrite filter_cons_False by assumption. exact Hnil.
  - intros Hx. destruct (IH Hx) as (i & Hfind & Hrest).
    exists (S i). rewrite Hfind. split; [reflexivity|].
    intros y Hy. simpl. rewrite filter_cons_False by assumption.
    apply Hrest, Hy.
Qed.

Lemma list_find_insert_same (l : list A) (i : nat) (x y : A) :
  list_find P l = Some (i, x) -> P y ->
  list_find P (<[i := y]> l) = Some (i, y).
Proof.
  intros Hfind Hy. apply list_find_Some in Hfind as (Hl & _ & Hmin).
  apply list_find_insert_Some. right. left.
  repeat split; try assumption.
  apply lookup_lt_Some in Hl. exact Hl.
Qed.

Lemma list_find_snoc_new (l : list A) (y : A) :
  list_find P l = None -> P y ->
  list_find P (l ++ [y]) = Some (length l, y).
Proof.
  intros Hnone Hy. rewrite list_find_app_r by assumption.
  simpl. rewrite decide_True by assumption. reflexivity.
Qed.

Lemma list_find_lt_length (l : list A) (i : nat) (x : A) :
  list_find P l = Some (i, x) -> (i < length l)%nat.
Proof.
  intros Hfind. apply list_find_Some in Hfind as (Hl & _).
  apply lookup_lt_Some in Hl. exact Hl.
Qed.

End Finding.

Lemma insert_snoc_last {A} (l : list A) (x y : A) :
  <[length l := y]> (l ++ [x]) = l ++ [y].
Proof.
  rewrite insert_app_r_alt by lia. rewrite Nat.sub_diag. reflexivity.
Qed.

(** ** The aggregator, run alone against a reachable store *)

Lemma Math_round_div_negative (d : Z) :
  d < -30000 -> Math_round_div d (1000 * 60) < 0.
Proof.
  intros Hd. unfold Math_round_div. apply Z.div_lt_upper_bound; lia.
Qed.

Lemma stats_of_userId (s : Store) (userId : ObjectId) j d :
  stats_of s userId = Some (j, d) -> MeetingStats.userId d = userId.
Proof. intros H. apply list_find_Some in H as (_ & H & _). exact H. Qed.

(** ** Run equations of the aggregator *)

Section Equations.

Variable env : Env.
Hypothesis Hquiet : quiet env.

Lemma recordMeetingStart_quiet userId meetingId meetingTitle isScheduled w :
  meetingId <> ""%string ->
  let record := started_record env w userId meetingId meetingTitle isScheduled in
  recordMeetingStart userId meetingId meetingTitle isScheduled env w =
  (Return (length (meetingrecords (db w)), record),
   upserted env userId (started_stats (or_default false isScheduled))
     (mkWorld (mkStore (meetingstats (db w)) (meetingrecords (db w) ++ [record]))
        (S (S (dates w))) (S (trips w)) (outbox w))).
Proof.
  intros Hid record.
  unfold recordMeetingStart. rewrite try_rethrow.
  unfold new_MeetingRecord, mbind, M_bind, mret, M_ret, new_Date.
  rewrite (MeetingRecord_insert_quiet env Hquiet) by exact Hid.
  rewrite getUserStats_quiet by assumption.
  unfold upserted, stats_of, served. cbn [db dates trips outbox meetingstats meetingrecords].
  destruct (list_find _ (meetingstats (db w))) as [[j d]|] eqn:Hstats.
  - apply list_find_Some in Hstats as (Hl & _).
    cbn [snd]. rewrite (MeetingStats_save_quiet env Hquiet j d) by exact Hl.
    reflexivity.
  - cbn [snd].
    rewrite (MeetingStats_save_quiet env Hquiet)
      by (apply list_lookup_middle; reflexivity).
    unfold served. cbn [db dates trips outbox meetingstats meetingrecords].
    rewrite insert_snoc_last. reflexivity.
Qed.

(** An empty [meetingId] is refused by the validation of the new record,
    in every environment: two dates are taken and the store is not asked. *)
Lemma recordMeetingStart_invalid (env' : Env) userId meetingTitle isScheduled w :
  recordMeetingStart userId "" meetingTitle isScheduled env' w
  = (Throw ValidationError,
     mkWorld (db w) (S (S (dates w))) (trips w) (outbox w)).
Proof. reflexivity. Qed.

Lemma recordMeetingEnd_quiet_none userId meetingId participantCount w :
  active_records (db w) userId meetingId = [] ->
  recordMeetingEnd userId meetingId participantCount env w
  = (Return None, served (db w) w).
Proof.
  intros Hnone. apply list_find_filter_nil in Hnone.
  unfold recordMeetingEnd. rewrite try_rethrow.
  unfold MeetingRecord_findOne, mbind, M_bind, mret, M_ret.
  rewrite round_trip_quiet by assumption. simpl. rewrite Hnone. reflexivity.
Qed.

Lemma recordMeetingEnd_quiet_found userId meetingId participantCount w rid r :
  list_find (fun r => MeetingRecord.userId r = userId
                      /\ MeetingRecord.meetingId r = meetingId
                      /\ MeetingRecord.status r = active)
            (meetingrecords (db w)) = Some (rid, r) ->
  let r' := ended_record env w participantCount r in
  recordMeetingEnd userId meetingId participantCount env w =
  (Return (Some (rid, r')),
   upserted env userId
     (ended_stats (MeetingRecord.duration r') (or_default 1 participantCount))
     (mkWorld (mkStore (meetingstats (db w)) (<[rid := r']> (meetingrecords (db w))))
        (S (dates w)) (S (S (trips w))) (outbox w))).
Proof.
  intros Hfind r'.
  pose proof Hfind as Hfound. apply list_find_Some in Hfound as (Hrid & _).
  unfold recordMeetingEnd. rewrite try_rethrow.
  unfold MeetingRecord_findOne, mbind, M_bind, mret, M_ret, new_Date.
  rewrite round_trip_quiet by assumption.
  cbn [db dates trips outbox meetingstats meetingrecords fst snd served].
  rewrite Hfind. cbn [fst snd].
  rewrite (MeetingRecord_save_quiet env Hquiet rid r) by exact Hrid.
  rewrite getUserStats_quiet by assumption.
  unfold upserted, stats_of, served. cbn [db dates trips outbox meetingstats meetingrecords].
  destruct (list_find _ (meetingstats (db w))) as [[j d]|] eqn:Hstats.
  - apply list_find_Some in Hstats as (Hl & _).
    cbn [snd]. rewrite (MeetingStats_save_quiet env Hquiet j d) by exact Hl.
    reflexivity.
  - cbn [snd].
    rewrite (MeetingStats_save_quiet env Hquiet)
      by (apply list_lookup_middle; reflexivity).
    unfold served. cbn [db dates trips outbox meetingstats meetingrecords].
    rewrite insert_snoc_last. reflexivity.
Qed.

End Equations.

(** ** Lists of statistics documents *)

Section Documents.

Context {A : Type} (P : A -> Prop) `{!forall x, Decision (P x)}.

(** The first document that satisfies [P] is the head of those that do, and
    replacing it by one that does not leaves the others. *)
Lemma list_find_filter_cons (l : list A) (x : A) (rest : list A) :
  filter P l = x :: rest ->
  exists i, list_find P l = Some (i, x)
            /\ forall y, ~ P y -> filter P (<[i := y]> l) = rest.
Proof.
  induction l as [|a l IH]; [discriminate|].
  rewrite filter_cons. simpl. destruct (decide (P a)) as [Ha|Ha].
  - intros [= -> Hrest]. exists 0%nat. split; [reflexivity|].
    intros y Hy. simpl. rewrite filter_cons_False by assumption. exact Hrest.
  - intros Hx. destruct (IH Hx) as (i & Hfind & Hrest).
    exists (S i). rewrite Hfind. split; [reflexivity|].
    intros y Hy. simpl. rewrite filter_cons_False by assumption.
    apply Hrest, Hy.
Qed.

Lemma list_find_insert_other (l : list A) (i : nat) (x y : A) :
  l !! i = Some x -> ~ P x -> ~ P y ->
  list_find P (<[i := y]> l) = list_find P l.
Proof.
  revert i. induction l as [|a l IH]; intros i Hi Hx Hy; [reflexivity|].
  destruct i as [|i]; simpl in *.
  - injection Hi as ->. rewrite !decide_False by assumption. reflexivity.
  - destruct (decide (P a)); [reflexivity|]. rewrite (IH i) by assumption.
    reflexivity.
Qed.

Lemma list_find_snoc_other (l : list A) (y : A) :
  ~ P y -> list_find P (l ++ [y]) = list_find P l.
Proof.
  intros Hy. induction l as [|a l IH]; simpl.
  - rewrite decide_False by assumption. reflexivity.
  - destruct (decide (P a)); [reflexivity|]. rewrite IH. reflexivity.
Qed.

Lemma filter_insert_same (l : list A) (i : nat) (x y : A) :
  list_find P l = Some (i, x) -> P y ->
  filter P (<[i := y]> l) = y :: tail (filter P l).
Proof.
  revert i. induction l as [|a l IH]; intros i; [discriminate|].
  simpl. destruct (decide (P a)) as [Ha|Ha].
  - intros [= <- <-] Hy. simpl.
    rewrite filter_cons_True by assumption.
    rewrite filter_cons_True by assumption. reflexivity.
  - destruct (list_find P l) as [[j z]|] eqn:Hfind; [|discriminate].
    intros [= <- <-] Hy. simpl.
    rewrite !filter_cons_False by assumption. apply IH; [reflexivity|assumption].
Qed.

End Documents.

Lemma stats_documents_unique (s : Store) (userId : ObjectId) id stats :
  unique_users s -> stats_of s userId = Some (id, stats) ->
  stats_documents s userId = [stats].
Proof.
  unfold unique_users, stats_documents, stats_of.
  generalize (meetingstats s). intros l. revert id.
  induction l as [|a l IH]; intros id Hnodup; [discriminate|].
  rewrite fmap_cons in Hnodup. apply NoDup_cons in Hnodup as [Hnotin Hnodup].
  simpl. rewrite filter_cons. destruct (decide (MeetingStats.userId a = userId)) as [Ha|Ha].
  - intros [= <- <-]. f_equal.
    destruct (filter _ l) as [|b rest] eqn:Hfilter; [reflexivity|].
    exfalso. apply Hnotin.
    assert (Hb : b ∈ filter (fun d => MeetingStats.userId d = userId) l)
      by (rewrite Hfilter; left).
    apply list_elem_of_filter in Hb as [Hbu Hb].
    rewrite Ha, <- Hbu. apply list_elem_of_fmap_2. exact Hb.
  - destruct (list_find _ l) as [[j z]|] eqn:Hfind; [|discriminate].
    intros [= <- <-]. apply (IH j); [assumption|reflexivity].
Qed.

Lemma unique_users_insert (l : list MeetingStats.t) id stats stats' :
  l !! id = Some stats ->
  MeetingStats.userId stats' = MeetingStats.userId stats ->
  MeetingStats.userId <$> <[id := stats']> l = MeetingStats.userId <$> l.
Proof.
  intros Hl Hu. rewrite list_fmap_insert, Hu.
  apply list_insert_id. rewrite list_lookup_fmap, Hl. reflexivity.
Qed.

Lemma unique_users_snoc (l : list MeetingStats.t) stats :
  NoDup (MeetingStats.userId <$> l) ->
  list_find (fun d => MeetingStats.userId d = MeetingStats.userId stats) l = None ->
  NoDup (MeetingStats.userId <$> (l ++ [stats])).
Proof.
  intros Hnodup Hnone. rewrite fmap_app. apply NoDup_app. split; [assumption|].
  split; [|apply NoDup_singleton].
  intros u Hu Hin. apply list_elem_of_singleton in Hin. subst u.
  apply list_elem_of_fmap in Hu as (d & Hd & Hin).
  apply list_find_None in Hnone. rewrite Forall_forall in Hnone.
  apply (Hnone d Hin). symmetry. exact Hd.
Qed.

Lemma filter_insert_other {A} (Q : A -> Prop) `{!forall x, Decision (Q x)}
    (l : list A) (i : nat) (x y : A) :
  l !! i = Some x -> ~ Q x -> ~ Q y -> filter Q (<[i := y]> l) = filter Q l.
Proof.
  revert i. induction l as [|a l IH]; intros i Hi Hx Hy; [reflexivity|].
  destruct i as [|i]; simpl in *.
  - injection Hi as ->. rewrite !filter_cons_False by assumption. reflexivity.
  - rewrite !filter_cons. rewrite (IH i) by assumption. reflexivity.
Qed.

(** ** The statistics document of a user, fetched and updated *)

Section Upsert.

Variable env : Env.
Hypothesis Hquiet : quiet env.

Variable userId : ObjectId.
Variable update : MeetingStats.t -> MeetingStats.t.
Hypothesis update_userId : forall d, MeetingStats.userId (update d) = MeetingStats.userId d.

Lemma getUserStats_fetched (w : World) :
  exists id,
    getUserStats userId env w = (Return (id, fetched_stats env userId w), fetched env userId w)
    /\ stats_of (db (fetched env userId w)) userId = Some (id, fetched_stats env userId w).
Proof.
  rewrite getUserStats_quiet by assumption.
  unfold fetched, fetched_stats.
  destruct (stats_of (db w) userId) as [[id d]|] eqn:Hstats.
  - exists id. split; [reflexivity|]. exact Hstats.
  - exists (length (meetingstats (db w))). split; [reflexivity|].
    unfold stats_of. simpl. apply list_find_snoc_new; [exact Hstats|reflexivity].
Qed.

Lemma fetched_stats_userId (w : World) :
  MeetingStats.userId (fetched_stats env userId w) = userId.
Proof.
  unfold fetched_stats. destruct (stats_of (db w) userId) as [[id d]|] eqn:Hstats.
  - eapply stats_of_userId, Hstats.
  - reflexivity.
Qed.

Lemma fetched_stats_counters (w : World) :
  live_counters (fetched_stats env userId w) = stored_counters (db w) userId.
Proof.
  unfold fetched_stats, stored_counters, counter, live_counters.
  destruct (stats_of (db w) userId) as [[id d]|]; reflexivity.
Qed.

Lemma upserted_records (w : World) :
  meetingrecords (db (upserted env userId update w)) = meetingrecords (db w).
Proof.
  unfold upserted. destruct (stats_of (db w) userId) as [[id d]|]; reflexivity.
Qed.

Lemma upserted_outbox (w : World) :
  outbox (upserted env userId update w) = outbox w.
Proof.
  unfold upserted. destruct (stats_of (db w) userId) as [[id d]|]; reflexivity.
Qed.

Lemma upserted_stats_of (w : World) :
  exists id stamp,
    stats_of (db (upserted env userId update w)) userId
    = Some (id, MeetingStats.set_lastUpdated stamp (update (fetched_stats env userId w))).
Proof.
  unfold upserted, fetched_stats.
  destruct (stats_of (db w) userId) as [[id d]|] eqn:Hstats.
  - exists id, (clock env (dates w)). unfold stats_of. simpl.
    apply list_find_insert_same with (x := d); [exact Hstats|].
    simpl. rewrite update_userId. eapply stats_of_userId, Hstats.
  - exists (length (meetingstats (db w))), (clock env (S (S (dates w)))).
    unfold stats_of. simpl.
    apply list_find_snoc_new; [exact Hstats|]. simpl. apply update_userId.
Qed.

Lemma upserted_other (w : World) (other : ObjectId) :
  other <> userId ->
  stats_of (db (upserted env userId update w)) other = stats_of (db w) other.
Proof.
  intros Hother. unfold upserted.
  destruct (stats_of (db w) userId) as [[id d]|] eqn:Hstats.
  - pose proof (stats_of_userId _ _ _ _ Hstats) as Hu.
    apply list_find_Some in Hstats as (Hl & _).
    unfold stats_of. simpl.
    apply list_find_insert_other with (x := d); [exact Hl| |].
    + rewrite Hu. congruence.
    + simpl. rewrite update_userId, Hu. congruence.
  - unfold stats_of. simpl. apply list_find_snoc_other.
    simpl. rewrite update_userId. simpl. congruence.
Qed.

Lemma upserted_unique (w : World) :
  unique_users (db w) -> unique_users (db (upserted env userId update w)).
Proof.
  unfold unique_users, upserted. intros Hunique.
  destruct (stats_of (db w) userId) as [[id d]|] eqn:Hstats; simpl.
  - apply list_find_Some in Hstats as (Hl & _).
    rewrite (unique_users_insert _ _ d); [assumption|exact Hl|].
    simpl. apply update_userId.
  - apply unique_users_snoc; [assumption|].
    simpl. rewrite update_userId. exact Hstats.
Qed.

Lemma fetched_unique (w : World) :
  unique_users (db w) -> unique_users (db (fetched env userId w)).
Proof.
  unfold unique_users, fetched. intros Hunique.
  destruct (stats_of (db w) userId) as [[id d]|] eqn:Hstats; simpl; [assumption|].
  apply unique_users_snoc; [assumption|exact Hstats].
Qed.

End Upsert.

Lemma started_stats_userId (isScheduled : bool) (d : MeetingStats.t) :
  MeetingStats.userId (started_stats isScheduled d) = MeetingStats.userId d.
Proof. destruct isScheduled; reflexivity. Qed.

Lemma ended_stats_userId (duration participantCount : Z) (d : MeetingStats.t) :
  MeetingStats.userId (ended_stats duration participantCount d) = MeetingStats.userId d.
Proof. reflexivity. Qed.

Section Aggregator.

Variable env : Env.
Hypothesis Hquiet : quiet env.

(** C3. When no active record of the meeting exists for the user,
    [recordMeetingEnd] returns null, throws nothing and leaves both
    collections as they were: no record and no statistics document is
    created or modified (and nothing is emitted, no date is read). *)
Theorem recordMeetingEnd_no_active_record
    (userId : ObjectId) (meetingId : string) (participantCount : option Z)
    (w : World) :
  active_records (db w) userId meetingId = [] ->
  exists w',
    recordMeetingEnd userId meetingId participantCount env w = (Return None, w')
    /\ db w' = db w
    /\ meetingstats (db w') = meetingstats (db w)
    /\ meetingrecords (db w') = meetingrecords (db w)
    /\ dates w' = dates w /\ outbox w' = outbox w.
Proof.
  intros Hnone. apply list_find_filter_nil in Hnone.
  exists (served (db w) w).
  unfold recordMeetingEnd. rewrite try_rethrow.
  unfold MeetingRecord_findOne, mbind, M_bind, mret, M_ret.
  rewrite round_trip_quiet by assumption. simpl. rewrite Hnone.
  repeat split; reflexivity.
Qed.

(** C2. When exactly one active record of the meeting exists for the user,
    and the time since its [startTime] and the sums below are integers a
    Number holds exactly, [recordMeetingEnd] returns that record with
    [endTime] the current time, [duration] the number of minutes nearest to
    the time elapsed since [startTime], a half rounding up (so [minutes] is
    the integer with minutes - 1/2 <= elapsed / 60000 < minutes + 1/2; it is
    negative when the clock reads more than half a minute before
    [startTime]: nothing clamps it), [participantCount] the given value
    and [status] completed; the collection holds it in place of the active
    one, no active record of the meeting is left, and the user's
    [totalDuration] and [totalParticipants] have grown by the duration and
    the participant count, the other two counters being as before. *)
Theorem recordMeetingEnd_completes
    (userId : ObjectId) (meetingId : string) (participantCount : option Z)
    (w : World) (r : MeetingRecord.t) (minutes : Z) :
  active_records (db w) userId meetingId = [r] ->
  let now := clock env (dates w) in
  let elapsed := now - MeetingRecord.startTime r in
  let count := or_default 1 participantCount in
  (2 * minutes - 1) * 60000 <= 2 * elapsed < (2 * minutes + 1) * 60000 ->
  safe_integer elapsed ->
  safe_sum (counter MeetingStats.totalDuration (db w) userId) minutes ->
  safe_sum (counter MeetingStats.totalParticipants (db w) userId) count ->
  let r' :=
    MeetingRecord.mk (MeetingRecord.userId r) (MeetingRecord.meetingId r)
      (MeetingRecord.meetingTitle r) (MeetingRecord.startTime r)
      (Some now) minutes count (MeetingRecord.isScheduled r) completed
      (MeetingRecord.createdAt r) in
  exists rid w',
    recordMeetingEnd userId meetingId participantCount env w
    = (Return (Some (rid, r')), w')
    /\ meetingrecords (db w) !! rid = Some r
    /\ meetingrecords (db w') = <[rid := r']> (meetingrecords (db w))
    /\ meetingrecords (db w') !! rid = Some r'
    /\ active_records (db w') userId meetingId = []
    /\ counter MeetingStats.totalDuration (db w') userId
       = counter MeetingStats.totalDuration (db w) userId + minutes
    /\ counter MeetingStats.totalParticipants (db w') userId
       = counter MeetingStats.totalParticipants (db w) userId + count
    /\ counter MeetingStats.totalCalls (db w') userId
       = counter MeetingStats.totalCalls (db w) userId
    /\ counter MeetingStats.meetingsScheduled (db w') userId
       = counter MeetingStats.meetingsScheduled (db w) userId
    /\ (elapsed < -30000 -> minutes < 0)
    /\ (forall n, participantCount = Some n -> count = n).
Proof.
  intros Hone now elapsed count Hminutes _ _ _ r'.
  assert (Hround : Math_round_div elapsed (1000 * 60) = minutes).
  { unfold Math_round_div. apply Z.le_antisymm.
    - apply Z.lt_succ_r, Z.div_lt_upper_bound; lia.
    - apply Z.div_le_lower_bound; lia. }
  destruct (list_find_filter_singleton _ _ _ Hone) as (rid & Hfind & Hleft).
  assert (Hr : meetingrecords (db w) !! rid = Some r).
  { apply list_find_Some in Hfind as (H & _). exact H. }
  assert (Hnot : ~ (MeetingRecord.userId r' = userId
                    /\ MeetingRecord.meetingId r' = meetingId
                    /\ MeetingRecord.status r' = active)).
  { intros (_ & _ & H). discriminate H. }
  assert (Hended : ended_record env w participantCount r = r').
  { unfold ended_record. fold now elapsed. rewrite Hround. reflexivity. }
  pose proof (recordMeetingEnd_quiet_found env Hquiet userId meetingId
                participantCount w rid r Hfind) as Hrun.
  cbv zeta in Hrun. rewrite Hended in Hrun.
  change (MeetingRecord.duration r') with minutes in Hrun. fold count in Hrun.
  set (w0 := mkWorld _ _ _ _) in Hrun.
  exists rid, (upserted env userId (ended_stats minutes count) w0).
  split; [exact Hrun|]. split; [exact Hr|].
  rewrite upserted_records. subst w0. cbn [db meetingrecords].
  split; [reflexivity|].
  split; [apply list_lookup_insert_eq, lookup_lt_Some with r, Hr|].
  split.
  { unfold active_records. rewrite upserted_records. cbn [db meetingrecords].
    apply Hleft, Hnot. }
  set (w0 := mkWorld _ _ _ _).
  destruct (upserted_stats_of env userId (ended_stats minutes count)
              (ended_stats_userId minutes count) w0) as (id & stamp & Hstats).
  pose proof (fetched_stats_counters env userId w0) as Hcounters.
  unfold stored_counters in Hcounters. injection Hcounters as Hc Hd Hp Hs.
  subst w0. cbn [db meetingstats meetingrecords] in Hc, Hd, Hp, Hs.
  unfold counter at 1 3 5 7. rewrite Hstats. cbn.
  unfold counter, stats_of in *. cbn [meetingstats] in *.
  rewrite Hc, Hd, Hp, Hs.
  repeat split; try reflexivity.
  - lia.
  - intros n ->. reflexivity.
Qed.

(** C4. A [meetingId] that is not empty passes the validation of the new
    record, and [recordMeetingStart] succeeds and returns the record it
    created: a new record of the user and the meeting, appended to the
    collection, with [status] active and [startTime] the current time (the
    title and the scheduled flag as given, "Video Call" and false by
    default); the user's [totalCalls] has grown by 1, [meetingsScheduled]
    by 1 exactly when the meeting is scheduled, the other two counters are
    as before, and [lastUpdated] holds a reading of the clock taken during
    the call. With an empty [meetingId] the call does not succeed: it
    throws the validation error before any round trip, and the store is as
    it was. *)
Theorem recordMeetingStart_records
    (userId : ObjectId) (meetingId : string) (meetingTitle : option string)
    (isScheduled : option bool) (w : World) :
  let scheduled := or_default false isScheduled in
  let run := recordMeetingStart userId meetingId meetingTitle isScheduled env w in
  (meetingId <> ""%string ->
   exists rid record w',
     run = (Return (rid, record), w')
     /\ record
        = MeetingRecord.mk userId meetingId
            (or_default "Video Call"%string meetingTitle)
            (clock env (dates w)) None 0 1 scheduled active
            (clock env (S (dates w)))
     /\ MeetingRecord.status record = active
     /\ MeetingRecord.startTime record = clock env (dates w)
     /\ meetingrecords (db w') = meetingrecords (db w) ++ [record]
     /\ meetingrecords (db w') !! rid = Some record
     /\ counter MeetingStats.totalCalls (db w') userId
        = counter MeetingStats.totalCalls (db w) userId + 1
     /\ counter MeetingStats.meetingsScheduled (db w') userId
        = counter MeetingStats.meetingsScheduled (db w) userId
          + (if scheduled then 1 else 0)
     /\ counter MeetingStats.totalDuration (db w') userId
        = counter MeetingStats.totalDuration (db w) userId
     /\ counter MeetingStats.totalParticipants (db w') userId
        = counter MeetingStats.totalParticipants (db w) userId
     /\ (exists n, (S (dates w) < n)%nat /\ dates w' = S n
         /\ counter MeetingStats.lastUpdated (db w') userId = clock env n))
  /\ (meetingId = ""%string ->
      fst run = Throw ValidationError
      /\ db (snd run) = db w
      /\ trips (snd run) = trips w
      /\ outbox (snd run) = outbox w).
Proof.
  intros scheduled run. split.
  - intros Hid. subst run.
    rewrite recordMeetingStart_quiet by assumption.
    do 3 eexists. split; [reflexivity|].
    split; [reflexivity|]. split; [reflexivity|]. split; [reflexivity|].
    rewrite upserted_records. cbn [db meetingrecords].
    split; [reflexivity|].
    split; [apply list_lookup_middle; reflexivity|].
    fold scheduled.
    unfold upserted, counter, stats_of. cbn [db meetingstats dates].
    destruct (list_find _ (meetingstats (db w))) as [[j d]|] eqn:Hstats.
    + pose proof (stats_of_userId _ _ _ _ Hstats) as Hu.
      cbn [db meetingstats dates].
      erewrite list_find_insert_same;
        [|exact Hstats|destruct scheduled; exact Hu].
      repeat split; try reflexivity; try (destruct scheduled; simpl; lia).
      exists (S (S (dates w))). destruct scheduled; repeat split; lia.
    + cbn [db meetingstats dates].
      erewrite list_find_snoc_new;
        [|exact Hstats|destruct scheduled; reflexivity].
      repeat split; try reflexivity; try (destruct scheduled; simpl; lia).
      exists (S (S (S (S (dates w))))). destruct scheduled; repeat split; lia.
  - intros ->. subst run. rewrite recordMeetingStart_invalid.
    repeat split; reflexivity.
Qed.

(** The loop of [resetMonthlyStats], entered with the documents [pre]
    already saved and the documents [post] still to go. *)
Lemma resetMonthlyStats_loop (pre post : list MeetingStats.t) (w : World) :
  let shift := fun d => MeetingStats.set_lastMonthStats (live_counters d) d in
  meetingstats (db w) = (shift <$> pre) ++ post ->
  exists w',
    for_of (imap (fun i d => ((length pre + i)%nat, d)) post)
      (fun fetched =>
         let stats := snd fetched in
         let stats := MeetingStats.set_lastMonthStats (live_counters stats) stats in
         MeetingStats_save fetched stats) env w
    = (Return tt, w')
    /\ meetingstats (db w') = shift <$> (pre ++ post)
    /\ meetingrecords (db w') = meetingrecords (db w)
    /\ dates w' = dates w /\ outbox w' = outbox w.
Proof.
  intros shift. revert pre w.
  induction post as [|d post IH]; intros pre w Hdb.
  - exists w. rewrite app_nil_r in *. repeat split; try reflexivity. exact Hdb.
  - rewrite imap_cons. cbn [for_of].
    unfold mbind, M_bind. cbn [snd].
    rewrite (MeetingStats_save_quiet env Hquiet)
      by (rewrite Hdb; apply list_lookup_middle; rewrite length_fmap; lia).
    set (w1 := served _ w).
    destruct (IH (pre ++ [d]) w1) as (w' & Hrun & Hstats & Hrec & Hdates & Hout).
    { subst w1. simpl. rewrite Hdb.
      rewrite fmap_app. simpl. rewrite <- app_assoc. simpl.
      rewrite insert_app_r_alt by (rewrite length_fmap; lia).
      rewrite length_fmap.
      replace (length pre + 0 - length pre)%nat with 0%nat by lia.
      reflexivity. }
    exists w'. split.
    { rewrite <- Hrun. f_equal. apply imap_ext. intros i x _.
      simpl. rewrite length_app. simpl. f_equal. lia. }
    rewrite Hstats, <- app_assoc. repeat split; assumption.
Qed.

(** C5. [resetMonthlyStats] (the month roll-over) succeeds and gives every
    statistics document a [lastMonthStats] equal to its four live counters,
    the live counters themselves (and the rest of the document) being as
    before: a shift of the baseline, not a reset to zero. No document is
    added or removed, and the meeting records are untouched. *)
Theorem resetMonthlyStats_shifts_baseline (w : World) :
  exists w',
    resetMonthlyStats env w = (Return tt, w')
    /\ length (meetingstats (db w')) = length (meetingstats (db w))
    /\ meetingrecords (db w') = meetingrecords (db w)
    /\ forall i d, meetingstats (db w) !! i = Some d ->
         exists d',
           meetingstats (db w') !! i = Some d'
           /\ MeetingStats.lastMonthStats d'
              = LastMonthStats.mk (MeetingStats.totalCalls d)
                  (MeetingStats.totalDuration d)
                  (MeetingStats.totalParticipants d)
                  (MeetingStats.meetingsScheduled d)
           /\ MeetingStats.totalCalls d' = MeetingStats.totalCalls d
           /\ MeetingStats.totalDuration d' = MeetingStats.totalDuration d
           /\ MeetingStats.totalParticipants d' = MeetingStats.totalParticipants d
           /\ MeetingStats.meetingsScheduled d' = MeetingStats.meetingsScheduled d
           /\ MeetingStats.userId d' = MeetingStats.userId d
           /\ MeetingStats.lastUpdated d' = MeetingStats.lastUpdated d
           /\ MeetingStats.createdAt d' = MeetingStats.createdAt d.
Proof.
  unfold resetMonthlyStats. rewrite try_rethrow.
  unfold MeetingStats_find_all, mbind, M_bind.
  rewrite round_trip_quiet by assumption. cbn [fst snd].
  destruct (resetMonthlyStats_loop [] (meetingstats (db w)) (served (db w) w))
    as (w' & Hrun & Hstats & Hrec & _); [reflexivity|].
  exists w'. split; [exact Hrun|].
  simpl in Hstats. rewrite Hstats, length_fmap.
  split; [reflexivity|]. split; [exact Hrec|].
  intros i d Hd. eexists. split.
  { rewrite list_lookup_fmap, Hd. reflexivity. }
  repeat split; reflexivity.
Qed.

End Aggregator.

(** ** getUserStats against a concurrent creation *)

(** C6, as the code has it. When [getUserStats] finds no document of the
    user, and by the time its insert reaches the store another operation has
    created one, the insert is refused by the unique index and [getUserStats]
    throws that duplicate-key error to its caller: the store is left as the
    other operation left it, and no further round trip (no second read) is
    made. *)
Theorem getUserStats_duplicate_key
    (env : Env) (w : World) (userId : ObjectId)
    (existing : Document MeetingStats.t) :
  let n := trips w in
  let seen := interference env n (db w) in
  let raced := interference env (S n) seen in
  outage env n = false ->
  outage env (S n) = false ->
  stats_of seen userId = None ->
  stats_of raced userId = Some existing ->
  exists w',
    getUserStats userId env w = (Throw DuplicateKey, w')
    /\ db w' = raced
    /\ stats_of (db w') userId = Some existing
    /\ trips w' = S (S n).
Proof.
  intros n seen raced Hout0 Hout1 Hseen Hraced.
  unfold getUserStats, try_catch, throw, MeetingStats_findOne,
    MeetingStats_insert, new_MeetingStats, mbind, M_bind, mret, M_ret,
    new_Date, round_trip.
  fold n. rewrite Hout0. fold seen. simpl.
  unfold stats_of in Hseen. rewrite Hseen. simpl.
  rewrite Hout1. fold raced.
  unfold stats_of in Hraced. rewrite Hraced. simpl.
  eexists. split; [reflexivity|]. simpl.
  unfold stats_of. rewrite Hraced. repeat split; reflexivity.
Qed.

(** ** The recent-meetings route *)

#[local] Instance newest_first_total : Total newest_first.
Proof. intros x y. unfold newest_first. lia. Qed.

#[local] Instance newest_first_trans : Transitive newest_first.
Proof. intros x y z. unfold newest_first. lia. Qed.

Lemma limit_or_10_positive (parsed : option Z) :
  (forall n, parsed = Some n -> 0 < n) ->
  limit_or_10 parsed = or_default 10 parsed /\ 0 < or_default 10 parsed.
Proof.
  intros Hpos. destruct parsed as [n|]; simpl; [|lia].
  specialize (Hpos n eq_refl).
  destruct (Z.eqb_spec n 0); lia.
Qed.

Lemma cursor_limit_positive {A} (n : Z) (l : list A) :
  0 < n -> cursor_limit n l = take (Z.to_nat n) l.
Proof.
  intros Hn. unfold cursor_limit.
  destruct (Z.eqb_spec n 0); [lia|].
  f_equal. lia.
Qed.

Lemma length_filter_imap {A} (P : A -> Prop) `{!forall x, Decision (P x)}
    (g : nat -> nat) (l : list A) :
  length (filter (fun x : nat * A => P (snd x)) (imap (fun i x => (g i, x)) l))
  = length (filter P l).
Proof.
  revert g. induction l as [|a l IH]; intros g; [reflexivity|].
  rewrite imap_cons, !filter_cons. simpl.
  specialize (IH (g ∘ S)).
  destruct (decide (P a)); simpl; rewrite <- IH; reflexivity.
Qed.

Lemma NoDup_imap_pair {A} (l : list A) : NoDup (fst <$> imap pair l).
Proof.
  rewrite fmap_imap.
  rewrite (imap_ext _ (fun i _ => id i)) by reflexivity.
  rewrite imap_seq_0, list_fmap_id. apply NoDup_seq.
Qed.

Section Route.

Variable env : Env.
Hypothesis Hquiet : quiet env.

Lemma getRecentMeetings_quiet (userId : ObjectId) (limit : option Z) (w : World) :
  getRecentMeetings userId limit env w =
  (Return
     ((fun x : Document MeetingRecord.t =>
         mkRecentMeeting (fst x) (snd x)
           (formatDuration (MeetingRecord.duration (snd x)))
           (toLocaleString env (MeetingRecord.startTime (snd x))))
      <$> cursor_limit (or_default 10 limit)
            (merge_sort newest_first
               (filter (fun x => MeetingRecord.userId (snd x) = userId)
                  (imap pair (meetingrecords (db w)))))),
   served (db w) w).
Proof.
  unfold getRecentMeetings. rewrite try_rethrow.
  unfold MeetingRecord_find_sort_limit, Date_toLocaleString,
    mbind, M_bind, mret, M_ret.
  rewrite round_trip_quiet by assumption. cbn [fst snd].
  f_equal. f_equal. apply list_fmap_ext. intros _ [id meeting] _. reflexivity.
Qed.

(** C8, as the code has it. For an authenticated user and a positive limit
    N (10 when the request has none), the route answers 200 with at most N
    projections of the user's meeting records, as many as there are when
    the user has fewer, ordered newest [startTime] first, each with the
    string [formatDuration] gives for its duration and the locale's string
    for its start; no record is returned twice, and a record of the user
    that is left out started no later than any that is returned: the answer
    is the N newest. The store is left as it was. *)
Theorem get_recent_meetings_newest_first
    (req : Request) (w : World) (userId : ObjectId) :
  or_else (session_userId req) (user__id req) = Some userId ->
  (forall n, query_limit req = Some n -> 0 < n) ->
  let N := or_default 10 (query_limit req) in
  exists meetings w',
    get_recent_meetings req env w
    = (Return (mkResponse 200 (meetings_body true meetings)), w')
    /\ db w' = db w
    /\ Z.of_nat (length meetings) <= N
    /\ length meetings
       = Nat.min (Z.to_nat N)
           (length (filter (fun r => MeetingRecord.userId r = userId)
                      (meetingrecords (db w))))
    /\ StronglySorted
         (fun a b => MeetingRecord.startTime (meeting b)
                     <= MeetingRecord.startTime (meeting a)) meetings
    /\ Forall (fun p =>
                 formattedDuration p
                 = formatDuration (MeetingRecord.duration (meeting p))
                 /\ formattedStartTime p
                    = toLocaleString env (MeetingRecord.startTime (meeting p))
                 /\ MeetingRecord.userId (meeting p) = userId
                 /\ meetingrecords (db w) !! _id p = Some (meeting p))
              meetings
    /\ NoDup (_id <$> meetings)
    /\ (forall i r,
          meetingrecords (db w) !! i = Some r ->
          MeetingRecord.userId r = userId ->
          ~ (i ∈ _id <$> meetings) ->
          Forall (fun p => MeetingRecord.startTime r
                           <= MeetingRecord.startTime (meeting p)) meetings).
Proof.
  intros Hauth Hpos N.
  destruct (limit_or_10_positive _ Hpos) as [Hlimit HN]. fold N in Hlimit, HN.
  unfold get_recent_meetings, try_catch. rewrite Hauth.
  unfold mbind, M_bind, mret, M_ret.
  rewrite getRecentMeetings_quiet. cbn [or_default]. rewrite Hlimit.
  rewrite cursor_limit_positive by assumption.
  set (found := filter _ (imap pair (meetingrecords (db w)))).
  set (sorted := merge_sort newest_first found).
  assert (Hsorted : StronglySorted newest_first sorted)
    by (apply StronglySorted_merge_sort; apply _).
  assert (Hperm : sorted ≡ₚ found) by apply merge_sort_Permutation.
  do 2 eexists. split; [reflexivity|]. split; [reflexivity|].
  rewrite length_fmap, length_take.
  assert (Hlen : length sorted
                 = length (filter (fun r => MeetingRecord.userId r = userId)
                             (meetingrecords (db w)))).
  { rewrite (Permutation_length Hperm). subst found.
    exact (length_filter_imap (fun r => MeetingRecord.userId r = userId) id
             (meetingrecords (db w))). }
  rewrite Hlen. split; [lia|]. split; [reflexivity|]. split.
  { apply (StronglySorted_fmap _ newest_first); [intros x y H; exact H|].
    apply StronglySorted_app_1_l with (l2 := drop (Z.to_nat N) sorted).
    rewrite take_drop. exact Hsorted. }
  split.
  { apply Forall_fmap, Forall_take, Forall_forall.
    intros [id r] Hin. simpl.
    rewrite Hperm in Hin.
    subst found. apply list_elem_of_filter in Hin as [Hu Hin].
    apply elem_of_lookup_imap in Hin as (i & y & [= -> ->] & Hy).
    repeat split; assumption. }
  assert (Hids : _id <$> ((fun x : Document MeetingRecord.t =>
                    mkRecentMeeting (fst x) (snd x)
                      (formatDuration (MeetingRecord.duration (snd x)))
                      (toLocaleString env (MeetingRecord.startTime (snd x))))
                  <$> take (Z.to_nat N) sorted)
                 = fst <$> take (Z.to_nat N) sorted).
  { rewrite <- list_fmap_compose. reflexivity. }
  rewrite Hids. split.
  { apply sublist_NoDup with (fst <$> sorted);
      [|apply fmap_sublist, sublist_take].
    rewrite Hperm. subst found.
    apply sublist_NoDup with (fst <$> imap pair (meetingrecords (db w)));
      [|apply fmap_sublist, sublist_filter].
    apply NoDup_imap_pair. }
  intros i r Hi Hu Hout.
  apply Forall_fmap, Forall_forall. intros x Hx. simpl.
  assert (Hin : (i, r) ∈ sorted).
  { rewrite Hperm. subst found. apply list_elem_of_filter. split; [exact Hu|].
    apply elem_of_lookup_imap. exists i, r. split; [reflexivity|exact Hi]. }
  rewrite <- (take_drop (Z.to_nat N) sorted) in Hin, Hsorted.
  apply elem_of_app in Hin as [Hin|Hin].
  - exfalso. apply Hout. apply list_elem_of_fmap. exists (i, r).
    split; [reflexivity|exact Hin].
  - exact (StronglySorted_app_1_elem_of _ _ _ _ _ Hsorted Hx Hin).
Qed.

End Route.

(** ** The Socket.IO handlers *)

Section Silent.

Context {A B : Type}.

Lemma silent_ret (a : A) : silent (mret a : M A).
Proof. intros env w. reflexivity. Qed.

Lemma silent_throw (e : Error) : silent (throw e : M A).
Proof. intros env w. reflexivity. Qed.

Lemma silent_bind (m : M A) (k : A -> M B) :
  silent m -> (forall a, silent (k a)) -> silent (m ≫= k).
Proof.
  intros Hm Hk env w. unfold mbind, M_bind.
  specialize (Hm env w). destruct (m env w) as [[a|e] w1]; simpl in *.
  - rewrite Hk. exact Hm.
  - exact Hm.
Qed.

Lemma silent_try_catch (m : M A) (h : Error -> M A) :
  silent m -> (forall e, silent (h e)) -> silent (try_catch m h).
Proof.
  intros Hm Hh env w. unfold try_catch.
  specialize (Hm env w). destruct (m env w) as [[a|e] w1]; simpl in *.
  - exact Hm.
  - rewrite Hh. exact Hm.
Qed.

Lemma silent_round_trip (q : Store -> Result A * Store) : silent (round_trip q).
Proof.
  intros env w. unfold round_trip.
  destruct (outage env (trips w)); [reflexivity|].
  destruct (q _) as [r s']. reflexivity.
Qed.

End Silent.

Lemma silent_new_Date : silent new_Date.
Proof. intros env w. reflexivity. Qed.

Create HintDb silent.
#[local] Hint Resolve silent_ret silent_throw silent_round_trip silent_new_Date : silent.

Ltac silence :=
  repeat first
    [ progress intros
    | solve [auto with silent]
    | apply silent_try_catch
    | apply silent_bind
    | match goal with
      | |- silent (match ?x with _ => _ end) => destruct x
      | |- silent (let '(_, _) := ?x in _) => destruct x
      end ].

Lemma silent_getUserStats userId : silent (getUserStats userId).
Proof.
  unfold getUserStats, new_MeetingStats, MeetingStats_findOne, MeetingStats_insert.
  silence.
Qed.

#[local] Hint Resolve silent_getUserStats : silent.

Lemma silent_recordMeetingStart userId meetingId meetingTitle isScheduled :
  silent (recordMeetingStart userId meetingId meetingTitle isScheduled).
Proof.
  unfold recordMeetingStart, new_MeetingRecord, MeetingRecord_insert, MeetingStats_save.
  silence.
Qed.

Lemma silent_recordMeetingEnd userId meetingId participantCount :
  silent (recordMeetingEnd userId meetingId participantCount).
Proof.
  unfold recordMeetingEnd, MeetingRecord_findOne, MeetingRecord_save, MeetingStats_save.
  silence.
Qed.

Lemma silent_getFormattedStats userId : silent (getFormattedStats userId).
Proof. unfold getFormattedStats. silence. Qed.

#[local] Hint Resolve silent_recordMeetingStart silent_recordMeetingEnd
  silent_getFormattedStats : silent.

Lemma silent_process_meeting_started data : silent (process_meeting_started data).
Proof. unfold process_meeting_started. silence. Qed.

Lemma silent_process_meeting_ended data : silent (process_meeting_ended data).
Proof. unfold process_meeting_ended. silence. Qed.

Lemma handleMeetingStart_relays (data : option MeetingStarted) env w :
  handleMeetingStart data env w =
  let '(outcome, w1) := process_meeting_started data env w in
  (Return tt, mkWorld (db w1) (dates w1) (trips w1) (outbox w1 ++ relayed outcome)).
Proof.
  unfold handleMeetingStart, process_meeting_started, try_catch.
  destruct data as [data|]; [|reflexivity].
  unfold mbind, M_bind, mret, M_ret, emit.
  destruct (recordMeetingStart _ _ _ _ env w) as [[record|e] w1]; [|reflexivity].
  destruct (getFormattedStats _ env w1) as [[stats|e] w2]; [|reflexivity].
  simpl. rewrite <- app_assoc. reflexivity.
Qed.

Lemma handleMeetingEnd_relays (data : option MeetingEnded) env w :
  handleMeetingEnd data env w =
  let '(outcome, w1) := process_meeting_ended data env w in
  (Return tt, mkWorld (db w1) (dates w1) (trips w1) (outbox w1 ++ relayed outcome)).
Proof.
  unfold handleMeetingEnd, process_meeting_ended, try_catch.
  destruct data as [data|]; [|reflexivity].
  unfold mbind, M_bind, mret, M_ret, emit.
  destruct (recordMeetingEnd _ _ _ env w) as [[record|e] w1]; [|reflexivity].
  destruct (getFormattedStats _ env w1) as [[stats|e] w2]; [|reflexivity].
  simpl. rewrite <- app_assoc. reflexivity.
Qed.

(** C9. Whatever the store and the clock do, each handler returns without
    throwing and adds to what was emitted: when its processing (the
    recording, then the recomputation of the view) throws, the one message
    stats-error on the originating socket, and no broadcast; when it
    returns, stats-updated with the view on the originating socket followed
    by the broadcast of stats-updated with the user and the view. So a
    broadcast is emitted only when the processing succeeded. *)
Theorem relay_emissions (env : Env) (w : World)
    (started : option MeetingStarted) (ended : option MeetingEnded) :
  relays handleMeetingStart process_meeting_started started env w
  /\ relays handleMeetingEnd process_meeting_ended ended env w.
Proof.
  assert (Hrelayed : forall outcome : Result (ObjectId * FormattedStats),
    (forall e, outcome = Throw e ->
       relayed outcome = [stats_error]
       /\ Forall (fun m => ~ is_broadcast m) (relayed outcome))
    /\ (Exists is_broadcast (relayed outcome) ->
        exists userId stats,
          outcome = Return (userId, stats)
          /\ relayed outcome
             = [to_socket "stats-updated" (stats_payload stats);
                to_others "stats-updated" (user_stats_payload userId stats)])).
  { intros [[userId stats]|e]; split.
    - discriminate.
    - intros _. eauto.
    - intros e' _. split; [reflexivity|].
      repeat constructor. simpl. tauto.
    - simpl. intros H. apply Exists_cons in H as [[]|H].
      apply Exists_nil in H. destruct H. }
  unfold relays. cbv zeta. split.
  - rewrite handleMeetingStart_relays.
    pose proof (silent_process_meeting_started started env w) as Hout.
    destruct (process_meeting_started started env w) as [outcome w1].
    simpl in *. eexists. split; [reflexivity|]. simpl. rewrite Hout.
    split; [reflexivity|]. split; [reflexivity|].
    destruct (Hrelayed outcome) as [Hfail Hok]. split; [|exact Hok].
    intros e He. destruct (Hfail e He) as [-> Hno]. split; [reflexivity|].
    repeat constructor. simpl. tauto.
  - rewrite handleMeetingEnd_relays.
    pose proof (silent_process_meeting_ended ended env w) as Hout.
    destruct (process_meeting_ended ended env w) as [outcome w1].
    simpl in *. eexists. split; [reflexivity|]. simpl. rewrite Hout.
    split; [reflexivity|]. split; [reflexivity|].
    destruct (Hrelayed outcome) as [Hfail Hok]. split; [|exact Hok].
    intros e He. destruct (Hfail e He) as [-> Hno]. split; [reflexivity|].
    repeat constructor. simpl. tauto.
Qed.

(** ** Sample runs *)

Lemma quiet_sample : quiet Sample.env.
Proof. intros n. split; [reflexivity|]. intros s. reflexivity. Qed.

(** Closed comparisons of integers, and conjunctions of them. *)
Ltac by_computation :=
  vm_compute; repeat split;
  solve [reflexivity | discriminate | let H := fresh in intros H; discriminate H].

Lemma recordMeetingEnd_no_active_record_witness :
  exists w',
    recordMeetingEnd Sample.alice "retro" None Sample.env Sample.in_meeting
    = (Return None, w')
    /\ db w' = db Sample.in_meeting.
Proof.
  destruct (recordMeetingEnd_no_active_record Sample.env quiet_sample
              Sample.alice "retro" None Sample.in_meeting eq_refl)
    as (w' & Hrun & Hdb & _).
  exists w'. split; [exact Hrun | exact Hdb].
Defined.

Lemma quiet_half_past : quiet Scenario.half_past.
Proof. intros n. split; [reflexivity|]. intros s. reflexivity. Qed.

Lemma recordMeetingEnd_completes_witness :
  exists rid w',
    recordMeetingEnd Sample.alice "standup" (Some 3) Scenario.half_past
      Sample.in_meeting
    = (Return (Some (rid, Scenario.standup_at_half_past)), w')
    /\ counter MeetingStats.totalDuration (db w') Sample.alice = 30 + 65
    /\ counter MeetingStats.totalParticipants (db w') Sample.alice = 9 + 3.
Proof.
  destruct (recordMeetingEnd_completes Scenario.half_past quiet_half_past
              Sample.alice "standup" (Some 3) Sample.in_meeting Sample.standup 65
              eq_refl)
    as (rid & w' & Hrun & _ & _ & _ & _ & Hduration & Hparticipants & _);
    [by_computation..|].
  exists rid, w'. split; [exact Hrun|].
  split; [exact Hduration | exact Hparticipants].
Defined.

Lemma recordMeetingStart_records_witness :
  exists rid record w',
    recordMeetingStart Sample.alice "retro" None (Some true) Sample.env Sample.in_meeting
    = (Return (rid, record), w')
    /\ MeetingRecord.status record = active
    /\ counter MeetingStats.totalCalls (db w') Sample.alice = 4 + 1
    /\ counter MeetingStats.meetingsScheduled (db w') Sample.alice = 2 + 1.
Proof.
  destruct (recordMeetingStart_records Sample.env quiet_sample
              Sample.alice "retro" None (Some true) Sample.in_meeting)
    as [Hvalid _].
  destruct Hvalid
    as (rid & record & w' & Hrun & _ & Hstatus & _ & _ & _ & Hcalls & Hsched & _);
    [discriminate|].
  exists rid, record, w'.
  split; [exact Hrun|]. split; [exact Hstatus|]. split; [exact Hcalls | exact Hsched].
Defined.

Lemma resetMonthlyStats_shifts_baseline_witness :
  exists w' d',
    resetMonthlyStats Sample.env Sample.in_meeting = (Return tt, w')
    /\ meetingstats (db w') !! 1%nat = Some d'
    /\ MeetingStats.lastMonthStats d' = LastMonthStats.mk 4 30 9 2
    /\ MeetingStats.totalCalls d' = 4.
Proof.
  destruct (resetMonthlyStats_shifts_baseline Sample.env quiet_sample Sample.in_meeting)
    as (w' & Hrun & _ & _ & Hdocs).
  destruct (Hdocs 1%nat Sample.alice_stats eq_refl)
    as (d' & Hd' & Hlast & Hcalls & _).
  exists w', d'. repeat split; assumption.
Defined.

Lemma getUserStats_duplicate_key_witness :
  exists w',
    getUserStats Sample.alice Sample.racing Sample.empty = (Throw DuplicateKey, w')
    /\ stats_of (db w') Sample.alice = Some (0%nat, Sample.rival).
Proof.
  destruct (getUserStats_duplicate_key Sample.racing Sample.empty Sample.alice
              (0%nat, Sample.rival) eq_refl eq_refl eq_refl eq_refl)
    as (w' & Hrun & _ & Hstats & _).
  exists w'. split; [exact Hrun | exact Hstats].
Defined.

(** C6, as stated, fails: the rival's document is in the store, and the
    caller gets the duplicate-key error, not that document. *)
Lemma getUserStats_race_throws :
  let outcome := getUserStats Sample.alice Sample.racing Sample.empty in
  fst outcome = Throw DuplicateKey
  /\ stats_of (db (snd outcome)) Sample.alice = Some (0%nat, Sample.rival)
  /\ fst outcome <> Return (0%nat, Sample.rival).
Proof. split; [reflexivity|]. split; [reflexivity|]. discriminate. Qed.

Lemma get_recent_meetings_newest_first_witness :
  exists w',
    get_recent_meetings (mkRequest (Some Sample.alice) None (Some 2))
      Sample.env Scenario.started_twice
    = (Return (mkResponse 200
                 (meetings_body true
                    [mkRecentMeeting 2 Scenario.standup_again "0h 0m" "2000";
                     mkRecentMeeting 1 Scenario.retro "0h 0m" "1500"])), w').
Proof.
  destruct (get_recent_meetings_newest_first Sample.env quiet_sample
              (mkRequest (Some Sample.alice) None (Some 2)) Scenario.started_twice
              Sample.alice eq_refl)
    as (meetings & w' & Hrun & _).
  { intros n [= <-]. reflexivity. }
  exists w'. rewrite Hrun.
  assert (Hanswer :
    fst (get_recent_meetings (mkRequest (Some Sample.alice) None (Some 2))
           Sample.env Scenario.started_twice)
    = Return (mkResponse 200
                (meetings_body true
                   [mkRecentMeeting 2 Scenario.standup_again "0h 0m" "2000";
                    mkRecentMeeting 1 Scenario.retro "0h 0m" "1500"])))
    by (vm_compute; reflexivity).
  rewrite Hrun in Hanswer. injection Hanswer as ->. reflexivity.
Defined.

(** C8, as stated, fails at the limit 0: it is read as 10. *)
Lemma get_recent_meetings_limit_zero :
  exists meeting,
    fst (get_recent_meetings (mkRequest (Some Sample.alice) None (Some 0))
           Sample.env Sample.in_meeting)
    = Return (mkResponse 200 (meetings_body true [meeting]))
    /\ ~ (Z.of_nat (length [meeting]) <= 0).
Proof. eexists. split; [vm_compute; reflexivity|]. simpl. lia. Qed.

(** The two ways a message can fail: no payload, and a store that is down. *)
Example relay_no_payload :
  outbox (snd (handleMeetingStart None Sample.env Sample.empty)) = [stats_error].
Proof. reflexivity. Qed.

Example relay_store_down :
  outbox (snd (handleMeetingEnd (Some (mkMeetingEnded Sample.alice "standup" (Some 3)))
                 Sample.down Sample.in_meeting))
  = [stats_error].
Proof. reflexivity. Qed.

(** A start without a [meetingId] fails the validation of its record, and
    is answered as any other failure. *)
Example relay_invalid_meeting :
  outbox (snd (handleMeetingStart (Some (mkMeetingStarted Sample.alice "" None None))
                 Sample.env Sample.in_meeting))
  = [stats_error]
  /\ db (snd (handleMeetingStart (Some (mkMeetingStarted Sample.alice "" None None))
                Sample.env Sample.in_meeting))
     = db Sample.in_meeting.
Proof. split; reflexivity. Qed.

(** An end without an active record is not a failure: the view is relayed. *)
Example relay_end_without_start :
  exists stats,
    outbox (snd (handleMeetingEnd (Some (mkMeetingEnded Sample.alice "retro" None))
                   Sample.env Sample.in_meeting))
    = [to_socket "stats-updated" (stats_payload stats);
       to_others "stats-updated" (user_stats_payload Sample.alice stats)].
Proof. eexists. vm_compute. reflexivity. Qed.

(** Start to end, 65 minutes and 3 participants later (spec, section 8). *)
Example start_then_end :
  let env := mkEnv (fun n => if (n <? 5)%nat then 1000 else 3901000)
               (fun _ => false) (fun _ s => s) ToString in
  let run :=
    (recordMeetingStart Sample.alice "weekly" None None;;
     recordMeetingEnd Sample.alice "weekly" (Some 3);;
     getFormattedStats Sample.alice) env Sample.empty in
  (exists stats, fst run = Return stats
     /\ duration_value (fs_totalDuration stats) = "1h 5m"
     /\ value (fs_totalCalls stats) = 1
     /\ value (fs_totalParticipants stats) = 3)
  /\ active_records (db (snd run)) Sample.alice "weekly" = [].
Proof. split; [eexists; split; [vm_compute; reflexivity|]|]; repeat split. Qed.

(** * Further properties *)

(** ** One statistics document per user *)

Section OnePerUser.

Variable env : Env.
Hypothesis Hquiet : quiet env.

Lemma getFormattedStats_quiet (userId : ObjectId) (w : World) :
  getFormattedStats userId env w
  = (Return (formatted_view (fetched_stats env userId w)), fetched env userId w).
Proof.
  unfold getFormattedStats. rewrite try_rethrow.
  unfold mbind, M_bind, mret, M_ret.
  destruct (getUserStats_fetched env Hquiet userId w) as (id & -> & _).
  reflexivity.
Qed.

Lemma resetMonthlyStats_quiet (w : World) :
  exists w',
    resetMonthlyStats env w = (Return tt, w')
    /\ meetingstats (db w') = rolled_over <$> meetingstats (db w)
    /\ meetingrecords (db w') = meetingrecords (db w)
    /\ outbox w' = outbox w.
Proof.
  unfold resetMonthlyStats. rewrite try_rethrow.
  unfold MeetingStats_find_all, mbind, M_bind.
  rewrite round_trip_quiet by assumption. cbn [fst snd].
  destruct (resetMonthlyStats_loop env Hquiet [] (meetingstats (db w)) (served (db w) w))
    as (w' & Hrun & Hstats & Hrec & _ & Hout); [reflexivity|].
  exists w'. split; [exact Hrun|]. split; [exact Hstats|]. split; assumption.
Qed.

(** X1. Get-or-create. In a store with at most one statistics document per
    user, [getUserStats] returns a document of the user, which is afterwards
    the only one the user has; an existing document is returned as it is and
    the store is not written, a missing one is created with every counter at
    0; a second call returns the same document and leaves the store as the
    first call left it. *)
Theorem getUserStats_get_or_create (userId : ObjectId) (w : World) :
  unique_users (db w) ->
  exists doc w1,
    getUserStats userId env w = (Return doc, w1)
    /\ MeetingStats.userId (snd doc) = userId
    /\ stats_documents (db w1) userId = [snd doc]
    /\ unique_users (db w1)
    /\ meetingrecords (db w1) = meetingrecords (db w)
    /\ (forall existing, stats_of (db w) userId = Some existing ->
          doc = existing /\ db w1 = db w)
    /\ (stats_of (db w) userId = None ->
          live_counters (snd doc) = LastMonthStats.mk 0 0 0 0
          /\ MeetingStats.lastMonthStats (snd doc) = LastMonthStats.mk 0 0 0 0
          /\ meetingstats (db w1) = meetingstats (db w) ++ [snd doc])
    /\ exists w2, getUserStats userId env w1 = (Return doc, w2) /\ db w2 = db w1.
Proof.
  intros Hunique.
  destruct (getUserStats_fetched env Hquiet userId w) as (id & Hrun & Hafter).
  exists (id, fetched_stats env userId w), (fetched env userId w).
  split; [exact Hrun|]. simpl.
  split; [apply fetched_stats_userId|].
  pose proof (fetched_unique env userId w Hunique) as Hunique1.
  split; [eapply stats_documents_unique; eassumption|].
  split; [exact Hunique1|].
  split; [unfold fetched; destruct (stats_of (db w) userId); reflexivity|].
  split.
  { intros existing Hexisting. rewrite getUserStats_quiet in Hrun by assumption.
    unfold fetched. rewrite Hexisting in *.
    injection Hrun as Hdoc. split; [symmetry; exact Hdoc|reflexivity]. }
  split.
  { intros Hnone. unfold fetched, fetched_stats. rewrite Hnone.
    repeat split; reflexivity. }
  exists (served (db (fetched env userId w)) (fetched env userId w)).
  split; [|reflexivity].
  rewrite getUserStats_quiet by assumption. rewrite Hafter. reflexivity.
Qed.

(** X2. Every operation of the aggregator keeps the store at one statistics
    document per user at most: starting or ending a meeting, reading the
    formatted view, rolling the month over. *)
Theorem aggregator_keeps_one_document_per_user
    (userId : ObjectId) (meetingId : string) (meetingTitle : option string)
    (isScheduled : option bool) (participantCount : option Z) (w : World) :
  unique_users (db w) ->
  unique_users (db (snd (recordMeetingStart userId meetingId meetingTitle isScheduled env w)))
  /\ unique_users (db (snd (recordMeetingEnd userId meetingId participantCount env w)))
  /\ unique_users (db (snd (getFormattedStats userId env w)))
  /\ unique_users (db (snd (resetMonthlyStats env w))).
Proof.
  intros Hunique. repeat split.
  - destruct (decide (meetingId = ""%string)) as [->|Hid].
    + rewrite recordMeetingStart_invalid. exact Hunique.
    + rewrite recordMeetingStart_quiet by assumption. simpl.
      apply upserted_unique; [apply started_stats_userId|exact Hunique].
  - destruct (active_records (db w) userId meetingId) as [|r rest] eqn:Hactive.
    + rewrite recordMeetingEnd_quiet_none by assumption. exact Hunique.
    + destruct (list_find_filter_cons _ _ _ _ Hactive) as (rid & Hfind & _).
      rewrite (recordMeetingEnd_quiet_found env Hquiet _ _ _ _ _ _ Hfind). simpl.
      apply upserted_unique; [apply ended_stats_userId|exact Hunique].
  - rewrite getFormattedStats_quiet. simpl. apply fetched_unique, Hunique.
  - destruct (resetMonthlyStats_quiet w) as (w' & -> & Hstats & _). simpl.
    unfold unique_users. rewrite Hstats, <- list_fmap_compose.
    exact Hunique.
Qed.

End OnePerUser.

(** ** Meetings, started and ended *)

Section Meetings.

Variable env : Env.
Hypothesis Hquiet : quiet env.

(** X3. [recordMeetingStart] looks for no record of the meeting: whatever the
    collection holds, the record it creates (the [meetingId] is not empty, so
    the record is valid) is one more active record of the meeting, so a
    meeting started twice has two; with an empty [meetingId] no record is
    added. *)
Theorem recordMeetingStart_adds_an_active_record
    (userId : ObjectId) (meetingId : string) (meetingTitle : option string)
    (isScheduled : option bool) (w : World) :
  let w1 := snd (recordMeetingStart userId meetingId meetingTitle isScheduled env w) in
  let w2 := snd (recordMeetingStart userId meetingId meetingTitle isScheduled env w1) in
  (meetingId <> ""%string ->
   active_records (db w1) userId meetingId
   = active_records (db w) userId meetingId
     ++ [started_record env w userId meetingId meetingTitle isScheduled]
   /\ length (active_records (db w2) userId meetingId)
      = S (S (length (active_records (db w) userId meetingId))))
  /\ (meetingId = ""%string ->
      meetingrecords (db w1) = meetingrecords (db w)
      /\ meetingrecords (db w2) = meetingrecords (db w)).
Proof.
  cbv zeta. split.
  - intros Hid.
    assert (Hone : forall w,
      active_records
        (db (snd (recordMeetingStart userId meetingId meetingTitle isScheduled env w)))
        userId meetingId
      = active_records (db w) userId meetingId
        ++ [started_record env w userId meetingId meetingTitle isScheduled]).
    { intros w0. rewrite recordMeetingStart_quiet by assumption. simpl.
      unfold active_records. rewrite upserted_records. simpl.
      rewrite filter_app. f_equal.
      rewrite filter_cons_True by (repeat split). reflexivity. }
    split; [apply Hone|].
    rewrite Hone, length_app, Hone, length_app. simpl. lia.
  - intros ->. rewrite !recordMeetingStart_invalid. split; reflexivity.
Qed.

(** X4. With several active records of the meeting, [recordMeetingEnd]
    completes the one that was inserted first and returns it; the others stay
    active, in their order. *)
Theorem recordMeetingEnd_completes_the_oldest
    (userId : ObjectId) (meetingId : string) (participantCount : option Z)
    (w : World) (r : MeetingRecord.t) (rest : list MeetingRecord.t) :
  active_records (db w) userId meetingId = r :: rest ->
  exists rid w',
    recordMeetingEnd userId meetingId participantCount env w
    = (Return (Some (rid, ended_record env w participantCount r)), w')
    /\ meetingrecords (db w) !! rid = Some r
    /\ meetingrecords (db w')
       = <[rid := ended_record env w participantCount r]> (meetingrecords (db w))
    /\ MeetingRecord.status (ended_record env w participantCount r) = completed
    /\ active_records (db w') userId meetingId = rest.
Proof.
  intros Hactive.
  destruct (list_find_filter_cons _ _ _ _ Hactive) as (rid & Hfind & Hrest).
  exists rid. eexists.
  split; [apply (recordMeetingEnd_quiet_found env Hquiet _ _ _ _ _ _ Hfind)|].
  split; [apply list_find_Some in Hfind as (H & _); exact H|].
  rewrite upserted_records. simpl.
  split; [reflexivity|]. split; [reflexivity|].
  unfold active_records. rewrite upserted_records. simpl.
  apply Hrest. intros (_ & _ & H). discriminate H.
Qed.

(** X5. Ending a meeting leaves the active records of every other meeting,
    and of every other user, as they were; starting or ending a meeting
    leaves the statistics document of every other user as it was. *)
Theorem other_meetings_and_users_untouched
    (userId : ObjectId) (meetingId : string) (meetingTitle : option string)
    (isScheduled : option bool) (participantCount : option Z) (w : World)
    (other : ObjectId) (otherMeeting : string) :
  let started := snd (recordMeetingStart userId meetingId meetingTitle isScheduled env w) in
  let ended := snd (recordMeetingEnd userId meetingId participantCount env w) in
  ((other, otherMeeting) <> (userId, meetingId) ->
     active_records (db ended) other otherMeeting
     = active_records (db w) other otherMeeting
     /\ active_records (db started) other otherMeeting
        = active_records (db w) other otherMeeting)
  /\ (other <> userId ->
        stats_of (db ended) other = stats_of (db w) other
        /\ stats_of (db started) other = stats_of (db w) other).
Proof.
  cbv zeta.
  assert (Hstarted :
    let started :=
      snd (recordMeetingStart userId meetingId meetingTitle isScheduled env w) in
    ((other, otherMeeting) <> (userId, meetingId) ->
       active_records (db started) other otherMeeting
       = active_records (db w) other otherMeeting)
    /\ (other <> userId -> stats_of (db started) other = stats_of (db w) other)).
  { cbv zeta. destruct (decide (meetingId = ""%string)) as [->|Hid].
    - rewrite recordMeetingStart_invalid. split; reflexivity.
    - rewrite recordMeetingStart_quiet by assumption. cbn [snd]. split.
      + intros Hother.
        unfold active_records. rewrite upserted_records. simpl.
        rewrite filter_app, filter_cons_False, filter_nil, app_nil_r; [reflexivity|].
        simpl. intros (Hu & Hm & _). apply Hother. congruence.
      + intros Hother.
        rewrite upserted_other by (first [apply started_stats_userId | exact Hother]).
        reflexivity. }
  destruct Hstarted as [Hrecords Hstats].
  destruct (active_records (db w) userId meetingId) as [|r rest] eqn:Hactive.
  - rewrite recordMeetingEnd_quiet_none by assumption. cbn [snd]. split.
    + intros Hother. split; [reflexivity|apply Hrecords, Hother].
    + intros Hother. split; [reflexivity|apply Hstats, Hother].
  - destruct (list_find_filter_cons _ _ _ _ Hactive) as (rid & Hfind & _).
    rewrite (recordMeetingEnd_quiet_found env Hquiet _ _ _ _ _ _ Hfind). cbn [snd].
    apply list_find_Some in Hfind as (Hrid & (Hu & Hm & _) & _).
    split.
    + intros Hother. split; [|apply Hrecords, Hother].
      unfold active_records. rewrite upserted_records. simpl.
      apply filter_insert_other with (x := r); [exact Hrid| |].
      * intros (Hu' & Hm' & _). apply Hother. congruence.
      * simpl. intros (_ & _ & H). discriminate H.
    + intros Hother. split; [|apply Hstats, Hother].
      rewrite upserted_other by (first [apply ended_stats_userId | exact Hother]).
      reflexivity.
Qed.

(** X6. Start, then end. When the meeting (its [meetingId] is not empty)
    has no active record, the record [recordMeetingStart] creates is the one
    [recordMeetingEnd] then completes and returns, its duration being the
    number of minutes nearest to the time between the two clock readings, a
    half rounding up ([minutes] is the integer with
    minutes - 1/2 <= elapsed / 60000 < minutes + 1/2); no active record of
    the meeting is left, and the user's counters have grown by one call, by
    that duration, by the participant count, and by one scheduled meeting
    when the meeting was scheduled. The elapsed time and the sums are
    integers a Number holds exactly. *)
Theorem start_then_end_completes
    (userId : ObjectId) (meetingId : string) (meetingTitle : option string)
    (isScheduled : option bool) (participantCount : option Z) (w : World)
    (minutes : Z) :
  meetingId <> ""%string ->
  active_records (db w) userId meetingId = [] ->
  let started := recordMeetingStart userId meetingId meetingTitle isScheduled env w in
  let w1 := snd started in
  let ended := recordMeetingEnd userId meetingId participantCount env w1 in
  let w2 := snd ended in
  let elapsed := clock env (dates w1) - clock env (dates w) in
  let count := or_default 1 participantCount in
  (2 * minutes - 1) * 60000 <= 2 * elapsed < (2 * minutes + 1) * 60000 ->
  safe_integer elapsed ->
  safe_sum (counter MeetingStats.totalCalls (db w) userId) 1 ->
  safe_sum (counter MeetingStats.totalDuration (db w) userId) minutes ->
  safe_sum (counter MeetingStats.totalParticipants (db w) userId) count ->
  safe_sum (counter MeetingStats.meetingsScheduled (db w) userId) 1 ->
  let record :=
    MeetingRecord.mk userId meetingId (or_default "Video Call"%string meetingTitle)
      (clock env (dates w)) (Some (clock env (dates w1))) minutes count
      (or_default false isScheduled) completed (clock env (S (dates w))) in
  exists rid,
    fst started
    = Return (rid, started_record env w userId meetingId meetingTitle isScheduled)
    /\ fst ended = Return (Some (rid, record))
    /\ meetingrecords (db w2) = meetingrecords (db w) ++ [record]
    /\ active_records (db w2) userId meetingId = []
    /\ stored_counters (db w2) userId
       = LastMonthStats.mk
           (counter MeetingStats.totalCalls (db w) userId + 1)
           (counter MeetingStats.totalDuration (db w) userId + minutes)
           (counter MeetingStats.totalParticipants (db w) userId + count)
           (counter MeetingStats.meetingsScheduled (db w) userId
            + (if or_default false isScheduled then 1 else 0)).
Proof.
  intros Hid Hnone. cbv zeta. intros Hminutes _ _ _ _ _.
  assert (Hround :
    Math_round_div
      (clock env
         (dates (snd (recordMeetingStart userId meetingId meetingTitle isScheduled
                        env w)))
       - clock env (dates w)) (1000 * 60) = minutes).
  { unfold Math_round_div. apply Z.le_antisymm.
    - apply Z.lt_succ_r, Z.div_lt_upper_bound; lia.
    - apply Z.div_le_lower_bound; lia. }
  clear Hminutes.
  exists (length (meetingrecords (db w))). revert Hround.
  rewrite recordMeetingStart_quiet by assumption. cbn [fst snd].
  set (record0 := started_record env w userId meetingId meetingTitle isScheduled).
  set (w0 := mkWorld _ _ _ _).
  set (w1 := upserted env userId _ w0).
  intros Hround.
  assert (Hfind : list_find (fun r => MeetingRecord.userId r = userId
                                      /\ MeetingRecord.meetingId r = meetingId
                                      /\ MeetingRecord.status r = active)
                            (meetingrecords (db w1))
                  = Some (length (meetingrecords (db w)), record0)).
  { subst w1. rewrite upserted_records. subst w0. simpl.
    apply list_find_snoc_new; [apply list_find_filter_nil, Hnone|].
    repeat split. }
  rewrite (recordMeetingEnd_quiet_found env Hquiet _ _ _ _ _ _ Hfind). cbn [fst snd].
  unfold ended_record.
  change (MeetingRecord.startTime record0) with (clock env (dates w)).
  rewrite Hround.
  split; [reflexivity|]. split; [reflexivity|].
  rewrite upserted_records. cbn [db meetingrecords].
  assert (Hrecords : meetingrecords (db w1) = meetingrecords (db w) ++ [record0]).
  { subst w1. rewrite upserted_records. reflexivity. }
  rewrite Hrecords, insert_snoc_last.
  split; [reflexivity|].
  split.
  { unfold active_records. rewrite upserted_records. cbn [db meetingrecords].
    rewrite filter_app. fold (active_records (db w) userId meetingId).
    rewrite Hnone. simpl. rewrite filter_cons_False; [reflexivity|].
    simpl. intros (_ & _ & H). discriminate H. }
  set (w1' := mkWorld _ _ _ _).
  match goal with
  | |- context [upserted env userId (ended_stats ?d ?c) w1'] =>
      destruct (upserted_stats_of env userId (ended_stats d c)
                  (ended_stats_userId d c) w1') as (id2 & stamp2 & Hstats2)
  end.
  assert (Hfetched : fetched_stats env userId w1'
                     = MeetingStats.set_lastUpdated (clock env (Nat.pred (dates w1)))
                         (started_stats (or_default false isScheduled)
                            (fetched_stats env userId w0))).
  { unfold fetched_stats at 1. subst w1'. unfold stats_of. cbn [db meetingstats].
    fold (stats_of (db w1) userId). subst w1. unfold upserted, fetched_stats.
    destruct (stats_of (db w0) userId) as [[id d]|] eqn:Hstats0.
    - unfold stats_of. simpl.
      erewrite list_find_insert_same;
        [reflexivity|exact Hstats0|].
      simpl. rewrite started_stats_userId. eapply stats_of_userId, Hstats0.
    - unfold stats_of. simpl.
      erewrite list_find_snoc_new; [reflexivity|exact Hstats0|].
      simpl. apply started_stats_userId. }
  unfold stored_counters, counter at 1 2 3 4. rewrite Hstats2, Hfetched.
  pose proof (fetched_stats_counters env userId w0) as Hcounters.
  unfold stored_counters, live_counters in Hcounters.
  injection Hcounters as Hcalls Hduration Hparticipants Hscheduled.
  change (stats_of (db w0) userId) with (stats_of (db w) userId) in *.
  unfold counter in *. simpl in Hcalls, Hduration, Hparticipants, Hscheduled.
  destruct (or_default false isScheduled); simpl;
    rewrite Hcalls, Hduration, Hparticipants, Hscheduled, ?Z.add_0_r; reflexivity.
Qed.

(** X7. A second end is a no-op: once the only active record of the meeting
    has been completed, ending the meeting again returns null and leaves both
    collections as the first end left them. *)
Theorem recordMeetingEnd_twice
    (userId : ObjectId) (meetingId : string) (first second : option Z)
    (w : World) (r : MeetingRecord.t) :
  active_records (db w) userId meetingId = [r] ->
  let w1 := snd (recordMeetingEnd userId meetingId first env w) in
  exists w2,
    recordMeetingEnd userId meetingId second env w1 = (Return None, w2)
    /\ db w2 = db w1
    /\ stored_counters (db w2) userId = stored_counters (db w1) userId.
Proof.
  intros Hactive. cbv zeta.
  destruct (list_find_filter_cons _ _ _ _ Hactive) as (rid & Hfind & Hrest).
  rewrite (recordMeetingEnd_quiet_found env Hquiet _ _ _ _ _ _ Hfind). cbn [snd].
  set (w1 := upserted _ _ _ _).
  assert (Hnone : active_records (db w1) userId meetingId = []).
  { unfold active_records. subst w1. rewrite upserted_records. simpl.
    apply Hrest. intros (_ & _ & H). discriminate H. }
  exists (served (db w1) w1).
  rewrite recordMeetingEnd_quiet_none by assumption.
  repeat split.
Qed.

End Meetings.

(** ** Failures of the store *)

Section Failures.

Variable env : Env.
Hypothesis Halone : undisturbed env.

Lemma round_trip_up {A} (q : Store -> Result A * Store) (w : World) :
  outage env (trips w) = false ->
  round_trip q env w = (fst (q (db w)), served (snd (q (db w))) w).
Proof.
  intros Hup. unfold round_trip. rewrite Hup, Halone.
  destruct (q (db w)) as [r s']. reflexivity.
Qed.

Lemma round_trip_down {A} (q : Store -> Result A * Store) (w : World) :
  outage env (trips w) = true ->
  round_trip q env w = (Throw StoreError, served (db w) w).
Proof. intros Hdown. unfold round_trip. rewrite Hdown, Halone. reflexivity. Qed.

Lemma MeetingRecord_insert_up (r : MeetingRecord.t) (w : World) :
  MeetingRecord.meetingId r <> ""%string ->
  outage env (trips w) = false ->
  MeetingRecord_insert r env w
  = (Return (length (meetingrecords (db w)), r),
     served (mkStore (meetingstats (db w)) (meetingrecords (db w) ++ [r])) w).
Proof.
  intros Hid Hup. unfold MeetingRecord_insert.
  rewrite decide_False by assumption.
  rewrite round_trip_up by exact Hup. reflexivity.
Qed.

Lemma MeetingRecord_insert_down (r : MeetingRecord.t) (w : World) :
  MeetingRecord.meetingId r <> ""%string ->
  outage env (trips w) = true ->
  MeetingRecord_insert r env w = (Throw StoreError, served (db w) w).
Proof.
  intros Hid Hdown. unfold MeetingRecord_insert.
  rewrite decide_False by assumption.
  rewrite round_trip_down by exact Hdown. reflexivity.
Qed.

Lemma MeetingRecord_save_up (id : nat) (original modified : MeetingRecord.t)
    (w : World) :
  meetingrecords (db w) !! id = Some original ->
  outage env (trips w) = false ->
  MeetingRecord_save (id, original) modified env w
  = (Return tt,
     served (mkStore (meetingstats (db w))
               (<[id := modified]> (meetingrecords (db w)))) w).
Proof.
  intros Hstored Hup. unfold MeetingRecord_save.
  rewrite round_trip_up by exact Hup. cbn [fst snd].
  rewrite Hstored. cbn [fst snd]. rewrite MeetingRecord_saved_same. reflexivity.
Qed.

(** X8. No rollback at a start. When the insert of the record (a valid one:
    its [meetingId] is not empty) succeeds and the next round trip (the read
    of the user's statistics) fails, [recordMeetingStart] throws the store's
    error, and the new active record stays in the collection while the
    statistics are as they were: the call is recorded but not counted. *)
Theorem recordMeetingStart_partial_write
    (userId : ObjectId) (meetingId : string) (meetingTitle : option string)
    (isScheduled : option bool) (w : World) :
  meetingId <> ""%string ->
  outage env (trips w) = false ->
  outage env (S (trips w)) = true ->
  exists w',
    recordMeetingStart userId meetingId meetingTitle isScheduled env w
    = (Throw StoreError, w')
    /\ meetingrecords (db w')
       = meetingrecords (db w)
         ++ [started_record env w userId meetingId meetingTitle isScheduled]
    /\ active_records (db w') userId meetingId
       = active_records (db w) userId meetingId
         ++ [started_record env w userId meetingId meetingTitle isScheduled]
    /\ meetingstats (db w') = meetingstats (db w).
Proof.
  intros Hid Hup Hdown.
  unfold recordMeetingStart, getUserStats, try_catch, throw.
  unfold new_MeetingRecord, MeetingStats_findOne,
    mbind, M_bind, mret, M_ret, new_Date.
  rewrite MeetingRecord_insert_up by (first [exact Hid | exact Hup]).
  rewrite round_trip_down by exact Hdown. simpl.
  eexists. split; [reflexivity|]. simpl.
  split; [reflexivity|]. split; [|reflexivity].
  unfold active_records. simpl. rewrite filter_app. f_equal.
  rewrite filter_cons_True by (repeat split). reflexivity.
Qed.

(** X9. No rollback at an end. When the read and the save of the record
    succeed and the next round trip fails, [recordMeetingEnd] throws the
    store's error, and the record stays completed while the statistics are
    as they were: its minutes and participants are in no total, and the
    record is no longer among the active ones that a later end would
    complete. *)
Theorem recordMeetingEnd_partial_write
    (userId : ObjectId) (meetingId : string) (participantCount : option Z)
    (w : World) (r : MeetingRecord.t) (rest : list MeetingRecord.t) :
  active_records (db w) userId meetingId = r :: rest ->
  outage env (trips w) = false ->
  outage env (S (trips w)) = false ->
  outage env (S (S (trips w))) = true ->
  exists rid w',
    recordMeetingEnd userId meetingId participantCount env w
    = (Throw StoreError, w')
    /\ meetingrecords (db w')
       = <[rid := ended_record env w participantCount r]> (meetingrecords (db w))
    /\ meetingrecords (db w') !! rid = Some (ended_record env w participantCount r)
    /\ active_records (db w') userId meetingId = rest
    /\ meetingstats (db w') = meetingstats (db w).
Proof.
  intros Hactive Hup0 Hup1 Hdown.
  destruct (list_find_filter_cons _ _ _ _ Hactive) as (rid & Hfind & Hrest).
  pose proof (list_find_lt_length _ _ _ _ Hfind) as Hrid.
  pose proof Hfind as Hfound. apply list_find_Some in Hfound as (Hr & _).
  exists rid.
  unfold recordMeetingEnd, getUserStats, try_catch, throw.
  unfold MeetingRecord_findOne, MeetingStats_findOne,
    mbind, M_bind, mret, M_ret, new_Date.
  rewrite round_trip_up by exact Hup0.
  cbn [db dates trips outbox meetingstats meetingrecords fst snd served].
  rewrite Hfind. cbn [fst snd].
  rewrite (MeetingRecord_save_up rid r) by (first [exact Hr | exact Hup1]).
  rewrite round_trip_down by exact Hdown. simpl.
  eexists. split; [reflexivity|]. simpl.
  split; [reflexivity|].
  split; [apply list_lookup_insert_eq; exact Hrid|].
  split; [|reflexivity].
  apply Hrest. intros (_ & _ & H). discriminate H.
Qed.

Lemma getUserStats_down userId w :
  outage env (trips w) = true -> refused (getUserStats userId) env w.
Proof.
  intros Hdown. unfold refused, getUserStats, try_catch, throw,
    MeetingStats_findOne, mbind, M_bind.
  rewrite round_trip_down by exact Hdown. split; reflexivity.
Qed.

Lemma recordMeetingStart_down userId meetingId meetingTitle isScheduled w :
  meetingId <> ""%string ->
  outage env (trips w) = true ->
  refused (recordMeetingStart userId meetingId meetingTitle isScheduled) env w.
Proof.
  intros Hid Hdown. unfold refused, recordMeetingStart, try_catch, throw,
    new_MeetingRecord, mbind, M_bind, mret, M_ret, new_Date.
  rewrite MeetingRecord_insert_down by (first [exact Hid | exact Hdown]).
  split; reflexivity.
Qed.

(** Down or not, a start with an empty [meetingId] throws and leaves the
    store as it was. *)
Lemma recordMeetingStart_throws_down userId meetingId meetingTitle isScheduled w :
  outage env (trips w) = true ->
  exists e,
    fst (recordMeetingStart userId meetingId meetingTitle isScheduled env w) = Throw e
    /\ db (snd (recordMeetingStart userId meetingId meetingTitle isScheduled env w))
       = db w.
Proof.
  intros Hdown. destruct (decide (meetingId = ""%string)) as [->|Hid].
  - exists ValidationError. rewrite recordMeetingStart_invalid. split; reflexivity.
  - exists StoreError. apply recordMeetingStart_down; assumption.
Qed.

Lemma recordMeetingEnd_down userId meetingId participantCount w :
  outage env (trips w) = true ->
  refused (recordMeetingEnd userId meetingId participantCount) env w.
Proof.
  intros Hdown. unfold refused, recordMeetingEnd, try_catch, throw,
    MeetingRecord_findOne, mbind, M_bind.
  rewrite round_trip_down by exact Hdown. split; reflexivity.
Qed.

Lemma getFormattedStats_down userId w :
  outage env (trips w) = true -> refused (getFormattedStats userId) env w.
Proof.
  intros Hdown. destruct (getUserStats_down userId w Hdown) as [Hthrow Hdb].
  unfold refused, getFormattedStats, try_catch, throw, mbind, M_bind.
  destruct (getUserStats userId env w) as [[doc|e] w1]; simpl in *;
    [discriminate|]. injection Hthrow as ->. split; [reflexivity|exact Hdb].
Qed.

Lemma resetMonthlyStats_down w :
  outage env (trips w) = true -> refused resetMonthlyStats env w.
Proof.
  intros Hdown. unfold refused, resetMonthlyStats, try_catch, throw,
    MeetingStats_find_all, mbind, M_bind.
  rewrite round_trip_down by exact Hdown. split; reflexivity.
Qed.

Lemma getRecentMeetings_down userId limit w :
  outage env (trips w) = true -> refused (getRecentMeetings userId limit) env w.
Proof.
  intros Hdown. unfold refused, getRecentMeetings, try_catch, throw,
    MeetingRecord_find_sort_limit, mbind, M_bind.
  rewrite round_trip_down by exact Hdown. split; reflexivity.
Qed.

(** X10. While the store is down, each operation of the aggregator throws
    the store's error on its first round trip and leaves both collections as
    they were; [recordMeetingStart] does so when the [meetingId] is not
    empty, and otherwise throws the validation error, which comes before its
    first round trip, the collections being as they were as well. *)
Theorem store_down
    (userId : ObjectId) (meetingId : string) (meetingTitle : option string)
    (isScheduled : option bool) (participantCount limit : option Z) (w : World) :
  outage env (trips w) = true ->
  let start := recordMeetingStart userId meetingId meetingTitle isScheduled in
  refused (getUserStats userId) env w
  /\ (meetingId <> ""%string -> refused start env w)
  /\ (meetingId = ""%string ->
      fst (start env w) = Throw ValidationError
      /\ db (snd (start env w)) = db w
      /\ trips (snd (start env w)) = trips w)
  /\ refused (recordMeetingEnd userId meetingId participantCount) env w
  /\ refused (getFormattedStats userId) env w
  /\ refused resetMonthlyStats env w
  /\ refused (getRecentMeetings userId limit) env w.
Proof.
  intros Hdown start.
  split; [apply getUserStats_down, Hdown|].
  split; [intros Hid; apply recordMeetingStart_down; assumption|].
  split.
  { intros ->. subst start. rewrite recordMeetingStart_invalid.
    repeat split; reflexivity. }
  split; [apply recordMeetingEnd_down, Hdown|].
  split; [apply getFormattedStats_down, Hdown|].
  split; [apply resetMonthlyStats_down, Hdown|].
  apply getRecentMeetings_down, Hdown.
Qed.

End Failures.

(** ** The formatted view and the month roll-over *)

Section Floats.

Local Open Scope float_scope.

Lemma Prim2SF_hundred : exists m e, Prim2SF 100 = S754_finite false m e.
Proof. do 2 eexists. vm_compute. reflexivity. Qed.

(** The percentage change of a Number against itself is a zero or NaN. *)
Lemma calculatePercentageChange_same (x : Number) :
  match Prim2SF (calculatePercentageChange x x) with
  | S754_zero _ | S754_nan => True
  | _ => False
  end.
Proof.
  unfold calculatePercentageChange.
  rewrite FloatAxioms.eqb_spec, ltb_spec, Prim2SF_zero.
  destruct (Prim2SF x) as [s|s| |s m e] eqn:Hx.
  - simpl. destruct s; exact I.
  - assert (Hnan : Prim2SF ((x - x) / x * 100) = S754_nan).
    { rewrite mul_spec, div_spec, sub_spec, Hx. destruct s; reflexivity. }
    simpl. destruct s; simpl; unfold Math_round; rewrite Hnan; rewrite Hnan; exact I.
  - assert (Hnan : Prim2SF ((x - x) / x * 100) = S754_nan).
    { rewrite mul_spec, div_spec, sub_spec, Hx. reflexivity. }
    simpl. unfold Math_round. rewrite Hnan. rewrite Hnan. exact I.
  - assert (Hzero : exists s', Prim2SF ((x - x) / x * 100) = S754_zero s').
    { destruct Prim2SF_hundred as (m100 & e100 & H100).
      rewrite mul_spec, div_spec, sub_spec, Hx, H100.
      unfold SF64sub, SFsub. rewrite Z.sub_diag. simpl. eauto. }
    destruct Hzero as (s' & Hzero).
    assert (Hne : SFeqb (S754_finite s m e) (S754_zero false) = false)
      by (destruct s; reflexivity).
    rewrite Hne. unfold Math_round. rewrite Hzero. rewrite Hzero. exact I.
Qed.

Lemma classify_change_zero_or_nan (x : Number) :
  match Prim2SF x with
  | S754_zero _ | S754_nan => True
  | _ => False
  end ->
  classify_change x = neutral.
Proof.
  unfold classify_change. rewrite !ltb_spec, Prim2SF_zero.
  destruct (Prim2SF x) as [s|s| |s m e]; try contradiction; reflexivity.
Qed.

Lemma classify_change_same (x : Number) :
  classify_change (calculatePercentageChange x x) = neutral.
Proof. apply classify_change_zero_or_nan, calculatePercentageChange_same. Qed.

End Floats.

Lemma rolled_over_twice (d : MeetingStats.t) :
  rolled_over (rolled_over d) = rolled_over d.
Proof. reflexivity. Qed.

Lemma stats_of_rolled_over (l : list MeetingStats.t) (r : list MeetingRecord.t)
    (r' : list MeetingRecord.t) (userId : ObjectId) :
  stats_of (mkStore (rolled_over <$> l) r) userId
  = prod_map id rolled_over <$> stats_of (mkStore l r') userId.
Proof.
  unfold stats_of. simpl. rewrite list_find_fmap. reflexivity.
Qed.

Section View.

Variable env : Env.
Hypothesis Hquiet : quiet env.

(** X11. Rolling the month over twice is rolling it over once: the second
    run leaves every document as the first left it (and a run over an empty
    collection leaves it empty). *)
Theorem resetMonthlyStats_twice (w : World) :
  let w1 := snd (resetMonthlyStats env w) in
  let w2 := snd (resetMonthlyStats env w1) in
  fst (resetMonthlyStats env w1) = Return tt
  /\ db w2 = db w1
  /\ (meetingstats (db w) = [] -> db w1 = db w).
Proof.
  cbv zeta.
  destruct (resetMonthlyStats_quiet env Hquiet w) as (w1 & -> & Hstats1 & Hrec1 & _).
  cbn [snd].
  destruct (resetMonthlyStats_quiet env Hquiet w1) as (w2 & -> & Hstats2 & Hrec2 & _).
  cbn [fst snd]. split; [reflexivity|]. split.
  - destruct (db w2) as [stats2 records2], (db w1) as [stats1 records1].
    simpl in *. subst. f_equal.
    rewrite <- list_fmap_compose. apply list_fmap_ext. intros _ d _. reflexivity.
  - intros Hempty. destruct (db w1) as [stats1 records1], (db w) as [stats records].
    simpl in *. subst. reflexivity.
Qed.

(** X12. Right after a month roll-over the view of every user is neutral on
    its four statistics, and shows the counters the user had before it. *)
Theorem view_after_rollover_is_neutral (userId : ObjectId) (w : World) :
  let w1 := snd (resetMonthlyStats env w) in
  exists stats,
    fst (getFormattedStats userId env w1) = Return stats
    /\ change_types stats = [neutral; neutral; neutral; neutral]
    /\ shown_counters stats = stored_counters (db w) userId.
Proof.
  cbv zeta.
  destruct (resetMonthlyStats_quiet env Hquiet w) as (w1 & -> & Hstats1 & Hrec1 & _).
  cbn [snd]. rewrite getFormattedStats_quiet by assumption. cbn [fst].
  eexists. split; [reflexivity|].
  assert (Hdoc : exists d,
    fetched_stats env userId w1 = rolled_over d
    /\ live_counters d = stored_counters (db w) userId).
  { unfold fetched_stats, stored_counters, counter.
    destruct (db w1) as [stats1 records1]. simpl in Hstats1, Hrec1. subst.
    rewrite (stats_of_rolled_over _ _ (meetingrecords (db w))).
    destruct (db w) as [stats records]. simpl.
    destruct (stats_of {| meetingstats := stats; meetingrecords := records |} userId)
      as [[id d]|]; simpl.
    - exists d. split; reflexivity.
    - eexists (MeetingStats.mk userId 0 0 0 0 (LastMonthStats.mk 0 0 0 0) _ _).
      split; reflexivity. }
  destruct Hdoc as (d & -> & Hcounters).
  split.
  - unfold change_types, formatted_view. simpl.
    rewrite !classify_change_same. reflexivity.
  - rewrite <- Hcounters. reflexivity.
Qed.

Lemma getFormattedStats_reads (userId : ObjectId) (w : World) :
  exists stats w',
    getFormattedStats userId env w = (Return stats, w')
    /\ stats = formatted_view (fetched_stats env userId w)
    /\ shown_counters stats = stored_counters (db w) userId
    /\ stored_counters (db w') userId = stored_counters (db w) userId
    /\ meetingrecords (db w') = meetingrecords (db w).
Proof.
  rewrite getFormattedStats_quiet by assumption.
  do 2 eexists. split; [reflexivity|]. split; [reflexivity|].
  pose proof (fetched_stats_counters env userId w) as Hcounters.
  split; [exact Hcounters|].
  destruct (getUserStats_fetched env Hquiet userId w) as (id & _ & Hafter).
  split.
  { rewrite <- Hcounters. unfold stored_counters, counter. rewrite Hafter. reflexivity. }
  unfold fetched. destruct (stats_of (db w) userId); reflexivity.
Qed.

(** X13. The view shows what is stored: its four values are the user's
    counters (0 for a user without a document) and its duration string is
    [formatDuration] of the total duration. Reading it changes no counter
    and no meeting record, and writes nothing when the user has a
    document. *)
Theorem getFormattedStats_shows_counters (userId : ObjectId) (w : World) :
  exists stats w',
    getFormattedStats userId env w = (Return stats, w')
    /\ shown_counters stats = stored_counters (db w) userId
    /\ duration_value (fs_totalDuration stats)
       = formatDuration (counter MeetingStats.totalDuration (db w) userId)
    /\ stored_counters (db w') userId = stored_counters (db w) userId
    /\ meetingrecords (db w') = meetingrecords (db w)
    /\ (forall id d, stats_of (db w) userId = Some (id, d) ->
          db w' = db w /\ fs_lastUpdated stats = MeetingStats.lastUpdated d).
Proof.
  destruct (getFormattedStats_reads userId w)
    as (stats & w' & Hrun & Hview & Hshown & Hstored & Hrecords).
  exists stats, w'. split; [exact Hrun|]. split; [exact Hshown|].
  split.
  { apply (f_equal LastMonthStats.totalDuration) in Hshown. simpl in Hshown.
    rewrite <- Hshown, Hview. reflexivity. }
  split; [exact Hstored|]. split; [exact Hrecords|].
  intros id d Hdoc.
  rewrite getFormattedStats_quiet in Hrun by assumption.
  injection Hrun as _ Hw'. subst stats w'.
  unfold fetched, fetched_stats. rewrite Hdoc. split; reflexivity.
Qed.

(** X14. Reading the view of a user without a document creates one: the
    collection gets a document of the user with every counter at 0, and the
    view is zero throughout: values 0, "0h 0m", changes 0, all neutral. *)
Theorem getFormattedStats_unknown_user (userId : ObjectId) (w : World) :
  stats_of (db w) userId = None ->
  exists w',
    getFormattedStats userId env w
    = (Return
         (mkFormattedStats (mkStat 0 0%float neutral)
            (mkDurationStat "0h 0m" 0 0%float neutral)
            (mkStat 0 0%float neutral) (mkStat 0 0%float neutral)
            (clock env (dates w))), w')
    /\ meetingstats (db w')
       = meetingstats (db w)
         ++ [MeetingStats.mk userId 0 0 0 0 (LastMonthStats.mk 0 0 0 0)
               (clock env (dates w)) (clock env (S (dates w)))]
    /\ meetingrecords (db w') = meetingrecords (db w).
Proof.
  intros Hnone. rewrite getFormattedStats_quiet by assumption.
  unfold fetched, fetched_stats. rewrite Hnone.
  eexists. split; [reflexivity|]. split; reflexivity.
Qed.

End View.

(** ** The routes and the handlers, end to end *)

Lemma live_counters_stamped (stamp : Date) (d : MeetingStats.t) :
  live_counters (MeetingStats.set_lastUpdated stamp d) = live_counters d.
Proof. reflexivity. Qed.

Lemma shown_counters_view (d : MeetingStats.t) :
  shown_counters (formatted_view d) = live_counters d.
Proof. reflexivity. Qed.

Section EndToEnd.

Variable env : Env.
Hypothesis Hquiet : quiet env.

(** The view read right after an update of the user's document. *)
Lemma view_after_upsert (userId : ObjectId)
    (update : MeetingStats.t -> MeetingStats.t) (w : World) :
  (forall d, MeetingStats.userId (update d) = MeetingStats.userId d) ->
  let w1 := upserted env userId update w in
  exists stats,
    getFormattedStats userId env w1 = (Return stats, served (db w1) w1)
    /\ shown_counters stats = live_counters (update (fetched_stats env userId w))
    /\ shown_counters stats = stored_counters (db w1) userId.
Proof.
  intros Hupdate w1.
  destruct (upserted_stats_of env userId update Hupdate w) as (id & stamp & Hstats).
  fold w1 in Hstats.
  rewrite getFormattedStats_quiet by assumption.
  unfold fetched, fetched_stats, stored_counters, counter. rewrite Hstats.
  eexists. split; [reflexivity|]. split; reflexivity.
Qed.

(** X15. A start posted by an authenticated user with a [meetingId] that
    is not empty, the store being reachable, is answered 200 with the new
    active record as its result and a view that already counts it: one call
    more than the user had, one scheduled meeting more when the meeting is
    scheduled, the other two counters as before. *)
Theorem post_start_counts_the_call
    (req : Request) (body : UpdateRequest) (userId : ObjectId) (w : World) :
  or_else (session_userId req) (user__id req) = Some userId ->
  action body = Some "start"%string ->
  body_meetingId body <> ""%string ->
  let record :=
    started_record env w userId (body_meetingId body) (body_meetingTitle body)
      (body_isScheduled body) in
  exists rid stats w',
    post_meeting_stats_update req body env w
    = (Return (mkApiResponse 200 (update_body true (Some (rid, record)) stats)), w')
    /\ meetingrecords (db w') = meetingrecords (db w) ++ [record]
    /\ MeetingRecord.status record = active
    /\ shown_counters stats = stored_counters (db w') userId
    /\ shown_counters stats
       = LastMonthStats.mk
           (counter MeetingStats.totalCalls (db w) userId + 1)
           (counter MeetingStats.totalDuration (db w) userId)
           (counter MeetingStats.totalParticipants (db w) userId)
           (counter MeetingStats.meetingsScheduled (db w) userId
            + (if or_default false (body_isScheduled body) then 1 else 0)).
Proof.
  intros Hauth Haction Hid record.
  unfold post_meeting_stats_update, try_catch. rewrite Hauth, Haction.
  cbn [action_is String.eqb Ascii.eqb Bool.eqb].
  unfold mbind, M_bind, mret, M_ret.
  rewrite recordMeetingStart_quiet by assumption.
  set (w0 := mkWorld _ _ _ _).
  destruct (view_after_upsert userId
              (started_stats (or_default false (body_isScheduled body))) w0
              (started_stats_userId _))
    as (stats & Hview & Hshown & Hstored).
  rewrite Hview.
  do 3 eexists. split; [reflexivity|]. cbn [db served].
  split; [apply upserted_records|]. split; [reflexivity|].
  split; [exact Hstored|].
  rewrite Hshown.
  pose proof (fetched_stats_counters env userId w0) as Hcounters.
  unfold stored_counters, live_counters, counter in *.
  change (stats_of (db w0) userId) with (stats_of (db w) userId) in Hcounters.
  injection Hcounters as Hcalls Hduration Hparticipants Hscheduled.
  destruct (or_default false (body_isScheduled body)); simpl;
    rewrite Hcalls, Hduration, Hparticipants, Hscheduled, ?Z.add_0_r; reflexivity.
Qed.

(** X16. An end posted for a meeting without an active record is not an
    error: the answer is 200 with a null result and the user's view as it
    stands, and no meeting record and no counter is changed. *)
Theorem post_end_without_active_record
    (req : Request) (body : UpdateRequest) (userId : ObjectId) (w : World) :
  or_else (session_userId req) (user__id req) = Some userId ->
  action body = Some "end"%string ->
  active_records (db w) userId (body_meetingId body) = [] ->
  exists stats w',
    post_meeting_stats_update req body env w
    = (Return (mkApiResponse 200 (update_body true None stats)), w')
    /\ shown_counters stats = stored_counters (db w) userId
    /\ stored_counters (db w') userId = stored_counters (db w) userId
    /\ meetingrecords (db w') = meetingrecords (db w).
Proof.
  intros Hauth Haction Hnone.
  unfold post_meeting_stats_update, try_catch. rewrite Hauth, Haction.
  cbn [action_is String.eqb Ascii.eqb Bool.eqb].
  unfold mbind, M_bind, mret, M_ret.
  rewrite recordMeetingEnd_quiet_none by assumption.
  destruct (getFormattedStats_reads env Hquiet userId (served (db w) w))
    as (stats & w' & Hview & _ & Hshown & Hstored & Hrecords).
  rewrite Hview. exists stats, w'. split; [reflexivity|].
  split; [exact Hshown|]. split; [exact Hstored|exact Hrecords].
Qed.



End EndToEnd.

(** ** The routes, whatever the store does *)

(** X19. While the store is down, an authenticated request to any of the
    three routes is answered 500 with the route's own fixed message; no
    route throws, and the store is left as it was. *)
Theorem routes_answer_500_when_the_store_is_down
    (env : Env) (w : World) (req : Request) (body : UpdateRequest)
    (userId : ObjectId) :
  undisturbed env ->
  outage env (trips w) = true ->
  or_else (session_userId req) (user__id req) = Some userId ->
  action body = Some "start"%string \/ action body = Some "end"%string ->
  (exists w', get_meeting_stats req env w
              = (Return (mkApiResponse 500
                           (api_error_body "Failed to fetch meeting statistics")), w')
              /\ db w' = db w)
  /\ (exists w', get_recent_meetings req env w
                 = (Return (mkResponse 500
                              (error_body "Failed to fetch recent meetings")), w')
                 /\ db w' = db w)
  /\ (exists w', post_meeting_stats_update req body env w
                 = (Return (mkApiResponse 500
                              (api_error_body "Failed to update meeting statistics")), w')
                 /\ db w' = db w).
Proof.
  intros Halone Hdown Hauth Haction.
  destruct (recordMeetingStart_throws_down env Halone userId (body_meetingId body)
              (body_meetingTitle body) (body_isScheduled body) w Hdown)
    as (failure & Hstart & Hstart_db).
  destruct (recordMeetingEnd_down env Halone userId (body_meetingId body)
              (body_participantCount body) w Hdown) as [Hend Hend_db].
  destruct (getFormattedStats_down env Halone userId w Hdown) as [Hview Hview_db].
  destruct (getRecentMeetings_down env Halone userId
              (Some (limit_or_10 (query_limit req))) w Hdown)
    as [Hrecent Hrecent_db].
  repeat split.
  - unfold get_meeting_stats, try_catch. rewrite Hauth.
    unfold mbind, M_bind, mret, M_ret.
    destruct (getFormattedStats userId env w) as [[stats|e] w1]; simpl in *;
      [discriminate|]. eauto.
  - unfold get_recent_meetings, try_catch. rewrite Hauth.
    unfold mbind, M_bind, mret, M_ret.
    destruct (getRecentMeetings userId _ env w) as [[meetings|e] w1]; simpl in *;
      [discriminate|]. eauto.
  - unfold post_meeting_stats_update, try_catch. rewrite Hauth.
    unfold mbind, M_bind, mret, M_ret.
    destruct Haction as [-> | ->]; cbn [action_is String.eqb Ascii.eqb Bool.eqb].
    + destruct (recordMeetingStart userId _ _ _ env w) as [[record|e] w1];
        simpl in *; [discriminate|]. eauto.
    + destruct (recordMeetingEnd userId _ _ env w) as [[record|e] w1];
        simpl in *; [discriminate|]. eauto.
Qed.

(** X20. The routes check the identity, then the action, before anything
    else: whatever the store does, a request without an identity is answered
    401 by each of the three routes, and an authenticated post with an
    action that is neither start nor end is answered 400, without a round
    trip to the store, a reading of the clock or an emission. *)
Theorem routes_refuse_before_the_store
    (env : Env) (w : World) (req : Request) (body : UpdateRequest) :
  (or_else (session_userId req) (user__id req) = None ->
     get_meeting_stats req env w
     = (Return (mkApiResponse 401 (api_error_body "Not authenticated")), w)
     /\ get_recent_meetings req env w
        = (Return (mkResponse 401 (error_body "Not authenticated")), w)
     /\ post_meeting_stats_update req body env w
        = (Return (mkApiResponse 401 (api_error_body "Not authenticated")), w))
  /\ (or_else (session_userId req) (user__id req) <> None ->
      action body <> Some "start"%string -> action body <> Some "end"%string ->
      post_meeting_stats_update req body env w
      = (Return (mkApiResponse 400 (api_error_body "Invalid action")), w)).
Proof.
  split.
  - intros Hauth.
    unfold get_meeting_stats, get_recent_meetings, post_meeting_stats_update,
      try_catch. rewrite Hauth. repeat split.
  - intros Hauth Hstart Hend.
    unfold post_meeting_stats_update, try_catch.
    destruct (or_else _ _) as [userId|]; [|congruence].
    assert (Hno : forall name, action body <> Some name ->
                   action_is name (action body) = false).
    { intros name Hname. unfold action_is. destruct (action body) as [a|]; [|reflexivity].
      destruct (String.eqb_spec a name); [congruence|reflexivity]. }
    rewrite (Hno _ Hstart), (Hno _ Hend). reflexivity.
Qed.

(** ** The client's cards *)

Section Cards.

Local Open Scope float_scope.

Lemma positive_is_not_zero (x : Number) : (0 <? x) = true -> (x =? 0) = false.
Proof.
  rewrite ltb_spec, FloatAxioms.eqb_spec, Prim2SF_zero. unfold SFltb, SFeqb.
  destruct (Prim2SF x) as [s|s| |s m e]; simpl; try discriminate;
    destruct s; simpl; congruence.
Qed.

Lemma negative_is_not_zero (x : Number) : (x <? 0) = true -> (x =? 0) = false.
Proof.
  rewrite ltb_spec, FloatAxioms.eqb_spec, Prim2SF_zero. unfold SFltb, SFeqb.
  destruct (Prim2SF x) as [s|s| |s m e]; simpl; try discriminate;
    destruct s; simpl; congruence.
Qed.

(** X21. The card of the client agrees with the change type the server
    sends with a change: a change above 0 is shown with the up arrow and
    " +N% from last month", a change below 0 with the down arrow and
    " N% from last month" (N carries its minus sign), and any other change
    (a zero, NaN) with the dash and " Same as last month"; the text never
    says "Same" beside an arrow. *)
Theorem card_agrees_with_the_server
    (Number_toString : Number -> string) (change : Number) :
  let changeType := ChangeType_string (classify_change change) in
  let icon := getChangeIcon changeType in
  let text := getChangeText Number_toString change changeType in
  ((0 <? change) = true ->
     icon = "fas fa-arrow-up"%string
     /\ text = (" +" +:+ Number_toString change +:+ "% from last month")%string)
  /\ ((0 <? change) = false -> (change <? 0) = true ->
        icon = "fas fa-arrow-down"%string
        /\ text = (" " +:+ Number_toString change +:+ "% from last month")%string)
  /\ ((0 <? change) = false -> (change <? 0) = false ->
        icon = "fas fa-minus"%string /\ text = " Same as last month"%string).
Proof.
  cbv zeta. unfold classify_change, getChangeText.
  repeat split.
  - rewrite H. reflexivity.
  - rewrite H. cbn [ChangeType_string String.eqb Ascii.eqb Bool.eqb orb].
    rewrite (positive_is_not_zero _ H). reflexivity.
  - rewrite H, H0. reflexivity.
  - rewrite H, H0. cbn [ChangeType_string String.eqb Ascii.eqb Bool.eqb orb].
    rewrite (negative_is_not_zero _ H0). reflexivity.
  - rewrite H, H0. reflexivity.
  - rewrite H, H0. reflexivity.
Qed.

End Cards.

(** ** A lost update *)

(** X22. Read-modify-write without isolation. When the user has a document
    and another start of the same user raises [totalCalls] between the read
    of the document and its save, [recordMeetingStart] (of a meeting whose
    [meetingId] is not empty) saves the count it computed from what it
    read: the document is left with one call more than before the two
    starts, not two. *)
Theorem recordMeetingStart_loses_a_concurrent_update
    (env : Env) (userId : ObjectId) (meetingId : string)
    (meetingTitle : option string) (isScheduled : option bool)
    (w : World) (id : nat) (stats : MeetingStats.t) :
  let n := trips w in
  meetingId <> ""%string ->
  stats_of (db w) userId = Some (id, stats) ->
  (forall k, outage env k = false) ->
  (forall k s, k <> S (S n) -> interference env k s = s) ->
  (forall s, interference env (S (S n)) s = concurrent_start userId s) ->
  exists record w',
    recordMeetingStart userId meetingId meetingTitle isScheduled env w
    = (Return record, w')
    /\ counter MeetingStats.totalCalls (interference env (S (S n)) (db w)) userId
       = MeetingStats.totalCalls stats + 1
    /\ counter MeetingStats.totalCalls (db w') userId
       = MeetingStats.totalCalls stats + 1.
Proof.
  intros n Hid Hstats Hup Halone Hrival. subst n.
  pose proof (stats_of_userId _ _ _ _ Hstats) as Hu.
  pose proof Hstats as Hfound. apply list_find_Some in Hfound as (Hl & _).
  assert (Hrun : forall A (q : Store -> Result A * Store) w0,
            round_trip q env w0
            = (fst (q (interference env (trips w0) (db w0))),
               served (snd (q (interference env (trips w0) (db w0)))) w0)).
  { intros A q w0. unfold round_trip. rewrite Hup.
    destruct (q _) as [r s']. reflexivity. }
  assert (Hread : forall w0,
            trips w0 = S (trips w) ->
            meetingstats (db w0) = meetingstats (db w) ->
            getUserStats userId env w0 = (Return (id, stats), served (db w0) w0)).
  { intros w0 Htrips Hsame. unfold getUserStats. rewrite try_rethrow.
    unfold MeetingStats_findOne, mbind, M_bind, mret, M_ret.
    rewrite Hrun. rewrite Htrips, Halone by lia. simpl.
    rewrite Hsame. unfold stats_of in Hstats. rewrite Hstats. reflexivity. }
  unfold recordMeetingStart. rewrite try_rethrow.
  unfold new_MeetingRecord, MeetingRecord_insert, MeetingStats_save,
    mbind, M_bind, mret, M_ret, new_Date.
  cbn [MeetingRecord.meetingId]. rewrite decide_False by exact Hid.
  rewrite Hrun. cbn [fst snd served db dates trips outbox meetingstats meetingrecords].
  rewrite (Halone (trips w)) by lia.
  cbn [fst snd served db dates trips outbox meetingstats meetingrecords].
  rewrite Hread by reflexivity.
  cbn [fst snd served db dates trips outbox meetingstats meetingrecords].
  rewrite Hrun. cbn [fst snd served db dates trips outbox meetingstats meetingrecords].
  rewrite !Hrival.
  unfold concurrent_start, stats_of.
  cbn [fst snd served db dates trips outbox meetingstats meetingrecords].
  unfold stats_of in Hstats. rewrite Hstats.
  cbn [fst snd served db dates trips outbox meetingstats meetingrecords].
  rewrite list_lookup_insert_eq by (apply lookup_lt_Some with stats, Hl).
  cbn [fst snd served db dates trips outbox meetingstats meetingrecords].
  do 2 eexists. split; [reflexivity|].
  cbn [fst snd served db dates trips outbox meetingstats meetingrecords].
  unfold counter, stats_of.
  cbn [fst snd served db dates trips outbox meetingstats meetingrecords].
  rewrite list_insert_insert_eq.
  assert (Hmodified : forall c : Z, set_if_modified (MeetingStats.totalCalls stats)
                        (MeetingStats.totalCalls stats + 1) c
                      = MeetingStats.totalCalls stats + 1).
  { intros c. unfold set_if_modified. rewrite decide_False by lia. reflexivity. }
  split.
  - erewrite list_find_insert_same; [reflexivity|exact Hstats|exact Hu].
  - erewrite list_find_insert_same; [|exact Hstats|].
    + destruct (or_default false isScheduled); cbn; apply Hmodified.
    + destruct (or_default false isScheduled); cbn;
        rewrite set_if_modified_same; exact Hu.
Qed.

(** ** Further sample runs *)

Lemma unique_in_meeting : unique_users (db Sample.in_meeting).
Proof.
  unfold unique_users. simpl. apply NoDup_cons. split.
  - intros H. apply list_elem_of_singleton in H. discriminate H.
  - apply NoDup_singleton.
Qed.

Lemma undisturbed_failing_at (n : nat) : undisturbed (Scenario.failing_at n).
Proof. intros k s. reflexivity. Qed.

Lemma undisturbed_down : undisturbed Sample.down.
Proof. intros k s. reflexivity. Qed.

Lemma overlapping_up (k : nat) : outage Scenario.overlapping k = false.
Proof. reflexivity. Qed.

Lemma overlapping_alone (k : nat) (s : Store) :
  k <> 2%nat -> interference Scenario.overlapping k s = s.
Proof. intros Hk. simpl. rewrite bool_decide_false by exact Hk. reflexivity. Qed.

Lemma overlapping_rival (s : Store) :
  interference Scenario.overlapping 2 s = concurrent_start Sample.alice s.
Proof. reflexivity. Qed.

Lemma getUserStats_get_or_create_witness :
  exists doc w1,
    getUserStats Scenario.carol Sample.env Sample.in_meeting = (Return doc, w1)
    /\ stats_documents (db w1) Scenario.carol = [snd doc].
Proof.
  destruct (getUserStats_get_or_create Sample.env quiet_sample Scenario.carol
              Sample.in_meeting unique_in_meeting)
    as (doc & w1 & Hrun & _ & Hdocs & _).
  exists doc, w1. split; [exact Hrun | exact Hdocs].
Defined.

Lemma aggregator_keeps_one_document_per_user_witness :
  unique_users
    (db (snd (recordMeetingStart Scenario.carol "weekly" None None
                Sample.env Sample.in_meeting))).
Proof.
  exact (proj1 (aggregator_keeps_one_document_per_user Sample.env quiet_sample
                  Scenario.carol "weekly" None None None Sample.in_meeting
                  unique_in_meeting)).
Defined.

Lemma recordMeetingStart_adds_an_active_record_witness :
  let w1 := snd (recordMeetingStart Sample.alice "standup" None None
                   Sample.env Sample.in_meeting) in
  let w2 := snd (recordMeetingStart Sample.alice "standup" None None Sample.env w1) in
  length (active_records (db w2) Sample.alice "standup") = 3%nat.
Proof.
  refine (proj2 (proj1 (recordMeetingStart_adds_an_active_record Sample.env
                          quiet_sample Sample.alice "standup" None None
                          Sample.in_meeting) _)).
  discriminate.
Defined.

Lemma recordMeetingEnd_completes_the_oldest_witness :
  exists rid w',
    recordMeetingEnd Sample.alice "standup" (Some 3) Sample.env Scenario.started_twice
    = (Return (Some (rid, Sample.standup_ended)), w')
    /\ active_records (db w') Sample.alice "standup" = [Scenario.standup_again].
Proof.
  destruct (recordMeetingEnd_completes_the_oldest Sample.env quiet_sample
              Sample.alice "standup" (Some 3) Scenario.started_twice
              Sample.standup [Scenario.standup_again] eq_refl)
    as (rid & w' & Hrun & _ & _ & _ & Hrest).
  exists rid, w'. split; [exact Hrun | exact Hrest].
Defined.

Lemma other_meetings_and_users_untouched_witness :
  active_records
    (db (snd (recordMeetingEnd Sample.alice "standup" None Sample.env
                Scenario.started_twice))) Sample.alice "retro"
  = [Scenario.retro].
Proof.
  refine (proj1 (proj1 (other_meetings_and_users_untouched Sample.env quiet_sample
                          Sample.alice "standup" None None None
                          Scenario.started_twice Sample.alice "retro") _)).
  intros H. discriminate H.
Defined.

Lemma quiet_long_call : quiet Scenario.long_call.
Proof. intros n. split; [reflexivity|]. intros s. reflexivity. Qed.

Lemma start_then_end_completes_witness :
  let w1 := snd (recordMeetingStart Sample.alice "weekly" None None
                   Scenario.long_call Sample.in_meeting) in
  let ended := recordMeetingEnd Sample.alice "weekly" (Some 4) Scenario.long_call w1 in
  fst ended
  = Return (Some (1%nat,
                  MeetingRecord.mk Sample.alice "weekly" "Video Call" 1000
                    (Some 3871000) 65 4 false completed 1000))
  /\ active_records (db (snd ended)) Sample.alice "weekly" = []
  /\ stored_counters (db (snd ended)) Sample.alice = LastMonthStats.mk 5 95 13 2.
Proof.
  destruct (start_then_end_completes Scenario.long_call quiet_long_call
              Sample.alice "weekly" None None (Some 4) Sample.in_meeting 65)
    as (rid & Hstarted & Hended & _ & Hnone & Hcounters);
    [by_computation..|].
  injection Hstarted as <-.
  split; [exact Hended|]. split; [exact Hnone | exact Hcounters].
Defined.

Lemma recordMeetingEnd_twice_witness :
  let w1 := snd (recordMeetingEnd Sample.alice "standup" (Some 3) Sample.env
                   Sample.in_meeting) in
  exists w2,
    recordMeetingEnd Sample.alice "standup" (Some 3) Sample.env w1 = (Return None, w2)
    /\ db w2 = db w1.
Proof.
  destruct (recordMeetingEnd_twice Sample.env quiet_sample Sample.alice "standup"
              (Some 3) (Some 3) Sample.in_meeting Sample.standup eq_refl)
    as (w2 & Hrun & Hdb & _).
  exists w2. split; [exact Hrun | exact Hdb].
Defined.

Lemma recordMeetingStart_partial_write_witness :
  exists w',
    recordMeetingStart Sample.alice "weekly" None None (Scenario.failing_at 1)
      Sample.in_meeting = (Throw StoreError, w')
    /\ meetingstats (db w') = meetingstats (db Sample.in_meeting).
Proof.
  destruct (recordMeetingStart_partial_write (Scenario.failing_at 1)
              (undisturbed_failing_at 1) Sample.alice "weekly" None None
              Sample.in_meeting)
    as (w' & Hrun & _ & _ & Hstats); [by_computation..|].
  exists w'. split; [exact Hrun | exact Hstats].
Defined.

Lemma recordMeetingEnd_partial_write_witness :
  exists w',
    recordMeetingEnd Sample.alice "standup" (Some 3) (Scenario.failing_at 2)
      Sample.in_meeting = (Throw StoreError, w')
    /\ active_records (db w') Sample.alice "standup" = []
    /\ meetingstats (db w') = meetingstats (db Sample.in_meeting).
Proof.
  destruct (recordMeetingEnd_partial_write (Scenario.failing_at 2)
              (undisturbed_failing_at 2) Sample.alice "standup" (Some 3)
              Sample.in_meeting Sample.standup [] eq_refl eq_refl eq_refl eq_refl)
    as (rid & w' & Hrun & _ & _ & Hrest & Hstats).
  exists w'. split; [exact Hrun|]. split; [exact Hrest | exact Hstats].
Defined.

Lemma store_down_witness :
  refused (recordMeetingStart Sample.alice "weekly" None None) Sample.down
    Sample.in_meeting.
Proof.
  refine (proj1 (proj2 (store_down Sample.down undisturbed_down Sample.alice
                          "weekly" None None None None Sample.in_meeting eq_refl))
            _).
  discriminate.
Defined.

Lemma resetMonthlyStats_twice_witness :
  let w1 := snd (resetMonthlyStats Sample.env Sample.in_meeting) in
  db (snd (resetMonthlyStats Sample.env w1)) = db w1.
Proof.
  exact (proj1 (proj2 (resetMonthlyStats_twice Sample.env quiet_sample
                         Sample.in_meeting))).
Defined.

Lemma view_after_rollover_is_neutral_witness :
  exists stats,
    fst (getFormattedStats Sample.alice Sample.env
           (snd (resetMonthlyStats Sample.env Sample.in_meeting))) = Return stats
    /\ change_types stats = [neutral; neutral; neutral; neutral].
Proof.
  destruct (view_after_rollover_is_neutral Sample.env quiet_sample Sample.alice
              Sample.in_meeting) as (stats & Hrun & Hneutral & _).
  exists stats. split; [exact Hrun | exact Hneutral].
Defined.

Lemma getFormattedStats_shows_counters_witness :
  exists stats w',
    getFormattedStats Sample.alice Sample.env Sample.in_meeting = (Return stats, w')
    /\ shown_counters stats = LastMonthStats.mk 4 30 9 2
    /\ duration_value (fs_totalDuration stats) = "0h 30m".
Proof.
  destruct (getFormattedStats_shows_counters Sample.env quiet_sample Sample.alice
              Sample.in_meeting) as (stats & w' & Hrun & Hshown & Hduration & _).
  exists stats, w'. split; [exact Hrun|]. split; [exact Hshown | exact Hduration].
Defined.

Lemma getFormattedStats_unknown_user_witness :
  exists w',
    fst (getFormattedStats Scenario.carol Sample.env Sample.in_meeting)
    = Return (mkFormattedStats (mkStat 0 0%float neutral)
                (mkDurationStat "0h 0m" 0 0%float neutral)
                (mkStat 0 0%float neutral) (mkStat 0 0%float neutral) 3901000)
    /\ length (meetingstats (db w')) = 3%nat.
Proof.
  destruct (getFormattedStats_unknown_user Sample.env quiet_sample Scenario.carol
              Sample.in_meeting eq_refl) as (w' & Hrun & Hstats & _).
  exists w'. split.
  - rewrite Hrun. reflexivity.
  - rewrite Hstats. reflexivity.
Defined.

Lemma post_start_counts_the_call_witness :
  exists rid stats w',
    post_meeting_stats_update Scenario.as_alice Scenario.start_weekly
      Sample.env Sample.in_meeting
    = (Return (mkApiResponse 200
                 (update_body true
                    (Some (rid, started_record Sample.env Sample.in_meeting
                                  Sample.alice "weekly" None (Some true)))
                    stats)), w')
    /\ shown_counters stats = LastMonthStats.mk 5 30 9 3.
Proof.
  destruct (post_start_counts_the_call Sample.env quiet_sample Scenario.as_alice
              Scenario.start_weekly Sample.alice Sample.in_meeting eq_refl eq_refl)
    as (rid & stats & w' & Hrun & _ & _ & _ & Hshown); [by_computation..|].
  exists rid, stats, w'. split; [exact Hrun | exact Hshown].
Defined.

Lemma post_end_without_active_record_witness :
  exists stats w',
    post_meeting_stats_update Scenario.as_alice Scenario.end_weekly
      Sample.env Sample.in_meeting
    = (Return (mkApiResponse 200 (update_body true None stats)), w')
    /\ meetingrecords (db w') = meetingrecords (db Sample.in_meeting).
Proof.
  destruct (post_end_without_active_record Sample.env quiet_sample Scenario.as_alice
              Scenario.end_weekly Sample.alice Sample.in_meeting
              eq_refl eq_refl eq_refl)
    as (stats & w' & Hrun & _ & _ & Hrecords).
  exists stats, w'. split; [exact Hrun | exact Hrecords].
Defined.



Lemma routes_answer_500_when_the_store_is_down_witness :
  exists w',
    get_meeting_stats Scenario.as_alice Sample.down Sample.in_meeting
    = (Return (mkApiResponse 500
                 (api_error_body "Failed to fetch meeting statistics")), w')
    /\ db w' = db Sample.in_meeting.
Proof.
  exact (proj1 (routes_answer_500_when_the_store_is_down Sample.down
                  Sample.in_meeting Scenario.as_alice Scenario.start_weekly
                  Sample.alice undisturbed_down eq_refl eq_refl
                  (or_introl eq_refl))).
Defined.

Lemma routes_refuse_before_the_store_witness :
  post_meeting_stats_update Scenario.as_alice Scenario.pause_weekly
    Sample.down Sample.in_meeting
  = (Return (mkApiResponse 400 (api_error_body "Invalid action")), Sample.in_meeting).
Proof.
  refine (proj2 (routes_refuse_before_the_store Sample.down Sample.in_meeting
                   Scenario.as_alice Scenario.pause_weekly) _ _ _);
    intros H; discriminate H.
Defined.

Lemma recordMeetingStart_loses_a_concurrent_update_witness :
  exists record w',
    recordMeetingStart Sample.alice "weekly" None None Scenario.overlapping
      Sample.in_meeting = (Return record, w')
    /\ counter MeetingStats.totalCalls (db w') Sample.alice = 4 + 1.
Proof.
  destruct (recordMeetingStart_loses_a_concurrent_update Scenario.overlapping
              Sample.alice "weekly" None None Sample.in_meeting 1%nat
              Sample.alice_stats)
    as (record & w' & Hrun & _ & Hcalls);
    [discriminate | reflexivity | exact overlapping_up | exact overlapping_alone
    | exact overlapping_rival |].
  exists record, w'. split; [exact Hrun | exact Hcalls].
Defined.

(** A save writes the paths the operation assigned and no other: minutes
    that another operation added between the read and the save of a start
    stay in the document, beside the call the start counted. *)
Example save_writes_the_modified_paths :
  stored_counters
    (db (snd (recordMeetingStart Sample.alice "weekly" None None
                Scenario.ending_meanwhile Sample.in_meeting))) Sample.alice
  = LastMonthStats.mk 5 95 9 2.
Proof. vm_compute. reflexivity. Qed.

